(** * AdaptML front end: the landing page's real-time reconciler and the
      dashboard's data population

    A shallow embedding of the landing page (component [Home]) and of
    [frontend/pages/dashboard.js] (component [Dashboard]).

    - [JS]: the JavaScript values the handlers touch: what [JSON.parse]
      yields, property reads, template-literal conversion, exceptions.
    - [Home]: the component state, every handler as the list of calls it
      makes (state setters as the closures the source passes), React's
      commit of those calls and the render of the carousels that follows
      it, the WebSocket and the notification-expiry effect with its timers,
      and a timed step function over the events the browser can deliver.
    - [Dashboard]: the three fetchers of the data-population effect.
    - [Rating]: the row of five stars both pages draw for a course. *)

From Stdlib Require Import List ZArith String Bool Arith Lia Permutation Sorted.
From Stdlib Require QArith Qround.
Import ListNotations.
Local Open Scope string_scope.
Local Open Scope list_scope.

(* ================================================================== *)
(** * JavaScript values and exceptions *)
(* ================================================================== *)

Module JS.

(** What a [throw] carries.  [Error message] is [new Error(message)]; the
    two others are the built-in exceptions the handlers can run into. *)
Inductive Thrown : Type :=
| SyntaxError
| TypeError
| Error (message : string).

(** A computation that returns or throws. *)
Inductive result (A : Type) : Type :=
| Ok (a : A)
| Throw (e : Thrown).
Arguments Ok {A} a.
Arguments Throw {A} e.

Definition bind {A B : Type} (r : result A) (k : A -> result B) : result B :=
  match r with
  | Ok a => k a
  | Throw e => Throw e
  end.

Notation "x <- r ;; k" := (bind r (fun x => k))
  (at level 61, r at next level, right associativity).

(** Values.  A number is carried as the text [Number.prototype.toString]
    gives for it (so [4.8] is [JNumber "4.8"]); an object as its own
    properties, one entry per key, in insertion order.  [JSON.parse] yields
    every shape but [JUndefined], which property reads produce. *)
#[warnings="-register-all"]
Inductive Value : Type :=
| JUndefined
| JNull
| JBool (b : bool)
| JNumber (text : string)
| JString (s : string)
| JArray (items : list Value)
| JObject (props : list (string * Value)).

Fixpoint own (k : string) (props : list (string * Value)) : option Value :=
  match props with
  | [] => None
  | (k', v) :: rest => if String.eqb k k' then Some v else own k rest
  end.

(** [v.k] for the keys the handlers and the course card read ([type],
    [course], [courses], [id], [title], [rating], [students], [price],
    [match]).  On an object or an array none of them is found on a
    prototype, so the read gives an own property of an object and
    [undefined] on anything else, and throws on [null] and [undefined].
    (A string does inherit [match], a function; the card throws on a string
    before it gets there, see [Home.CourseCard].) *)
Definition get (v : Value) (k : string) : result Value :=
  match v with
  | JUndefined | JNull => Throw TypeError
  | JObject props =>
      Ok (match own k props with Some x => x | None => JUndefined end)
  | _ => Ok JUndefined
  end.

(** [a === b] against a string constant, as a [case] label compares. *)
Definition strict_equals_string (v : Value) (s : string) : bool :=
  match v with
  | JString s' => String.eqb s' s
  | _ => false
  end.

Fixpoint join (sep : string) (parts : list string) : string :=
  match parts with
  | [] => EmptyString
  | [p] => p
  | p :: rest => (p ++ sep ++ join sep rest)%string
  end.

Fixpoint sequence {A : Type} (rs : list (result A)) : result (list A) :=
  match rs with
  | [] => Ok []
  | r :: rest => a <- r ;; l <- sequence rest ;; Ok (a :: l)
  end.

(** [`${v}`]: the ToString conversion of a template literal.  An array goes
    through [Array.prototype.join] ([null] and [undefined] elements give the
    empty string); a plain object gives ["[object Object]"] unless an own
    [toString] property (never callable in parsed JSON) shadows
    [Object.prototype.toString], in which case the conversion throws. *)
Fixpoint ToString (v : Value) : result string :=
  match v with
  | JUndefined => Ok "undefined"
  | JNull => Ok "null"
  | JBool true => Ok "true"
  | JBool false => Ok "false"
  | JNumber text => Ok text
  | JString s => Ok s
  | JArray items =>
      parts <- sequence (map (fun item =>
                 match item with
                 | JUndefined | JNull => Ok EmptyString
                 | _ => ToString item
                 end) items) ;;
      Ok (join "," parts)
  | JObject props =>
      match own "toString" props with
      | Some _ => Throw TypeError
      | None => Ok "[object Object]"
      end
  end.

(** [f] on each element in turn, up to the first that throws. *)
Definition each {A : Type} (f : A -> result unit) : list A -> result unit :=
  fix each (l : list A) : result unit :=
    match l with
    | [] => Ok tt
    | a :: rest => _ <- f a ;; each rest
    end.

(** [v.toLocaleString()], by whether it returns (a string, always) or
    throws.  Numbers and strings have their own method; a boolean and a
    plain object inherit [Object.prototype.toLocaleString], which calls
    [this.toString()], so that an object throws when an own [toLocaleString]
    or [toString] property (never callable in parsed JSON) is in the way; an
    array asks each element that is not [null] or [undefined]. *)
Fixpoint toLocaleString (v : Value) : result unit :=
  match v with
  | JUndefined | JNull => Throw TypeError
  | JBool _ | JNumber _ | JString _ => Ok tt
  | JArray items =>
      each (fun item =>
              match item with
              | JUndefined | JNull => Ok tt
              | _ => toLocaleString item
              end) items
  | JObject props =>
      match own "toLocaleString" props, own "toString" props with
      | None, None => Ok tt
      | _, _ => Throw TypeError
      end
  end.

(** [a.slice(0, n)] and [a.slice(1)]. *)
Definition slice_to {A : Type} (n : nat) (a : list A) : list A := firstn n a.
Definition slice_from {A : Type} (n : nat) (a : list A) : list A := skipn n a.

End JS.

(* ================================================================== *)
(** * The landing page: component [Home] *)
(* ================================================================== *)

Module Home.
Import JS.

(** ** State *)

(** [{ id: Date.now(), message: ... }] *)
Record Notification : Type := { id : Z; message : string }.

(** The six [useState] cells.  The three course lists start as [[]];
    [trending] is typed as a value because [setTrending(data.courses)] stores
    whatever the message carries. *)
Record State : Type := {
  topPicks : list Value;
  trending : Value;
  aiSuggestions : list Value;
  isLoading : bool;
  chatbotOpen : bool;
  notifications : list Notification
}.

Definition initial_state : State :=
  {| topPicks := []; trending := JArray []; aiSuggestions := [];
     isLoading := true; chatbotOpen := false; notifications := [] |}.

(** ** What a handler does *)

Inductive LogArg : Type :=
| NoArg
| ValueArg (v : Value)
| ThrownArg (e : Thrown)
| EventArg.

(** The calls a handler or an effect body makes, in program order.  A state
    setter carries the argument the source passes: a value, or the updater
    closure ([prev => ...]); the notification updaters also read
    [Date.now()], which they get as their first argument. *)
Inductive Action : Type :=
| console_log (text : string) (arg : LogArg)
| console_error (text : string) (arg : LogArg)
| call (fn : string)
| setTopPicks (v : list Value)
| setTrending (v : Value)
| setAiSuggestions (f : list Value -> result (list Value))
| setIsLoading (b : bool)
| setChatbotOpen (b : bool)
| setNotifications (f : Z -> list Notification -> result (list Notification))
| new_WebSocket (url : string)
| socket_close.

(** The payload of a [MessageEvent], by what [JSON.parse(event.data)] makes
    of it: the value it decodes to, or text that is not JSON. *)
Inductive Payload : Type :=
| Encoded (v : Value)
| Malformed (text : string).

Definition JSON_parse (data : Payload) : result Value :=
  match data with
  | Encoded v => Ok v
  | Malformed _ => Throw SyntaxError
  end.

(** [socket.onopen] *)
Definition onopen : result (list Action) :=
  Ok [console_log "WebSocket connection established" NoArg].

(** [socket.onmessage] *)
Definition onmessage (data : Payload) : result (list Action) :=
  data <- JSON_parse data ;;
  type <- get data "type" ;;
  if strict_equals_string type "new_recommendation" then
    Ok [ setAiSuggestions (fun prev =>
           course <- get data "course" ;;
           Ok (slice_to 10 (course :: prev)));
         setNotifications (fun Date_now prev =>
           course <- get data "course" ;;
           title <- get course "title" ;;
           text <- ToString title ;;
           Ok (prev ++ [{| id := Date_now;
                           message := ("New recommendation: " ++ text)%string |}])) ]
  else if strict_equals_string type "trending_update" then
    courses <- get data "courses" ;;
    Ok [setTrending courses]
  else
    Ok [console_log "Received unknown update type:" (ValueArg type)].

(** [socket.onerror] *)
Definition onerror : result (list Action) :=
  Ok [console_error "WebSocket error:" EventArg].

(** [socket.onclose] *)
Definition onclose : result (list Action) :=
  Ok [console_log "WebSocket connection closed" NoArg].

(** The [onClose] of the toast rendered for [notification]. *)
Definition onClose (notification : Notification) : result (list Action) :=
  Ok [setNotifications (fun _ prev =>
        Ok (filter (fun n => negb (Z.eqb (id n) (id notification))) prev))].

(** The callback the expiry effect hands to [setTimeout]. *)
Definition expire : result (list Action) :=
  Ok [setNotifications (fun _ prev => Ok (slice_from 1 prev))].

(** ** Initial data *)

Definition course (i title image rating students price : string) : Value :=
  JObject [("id", JNumber i); ("title", JString title);
           ("image", JString image); ("rating", JNumber rating);
           ("students", JNumber students); ("price", JNumber price)].

Definition suggestion (i title image rating students price mtch : string)
  : Value :=
  JObject [("id", JNumber i); ("title", JString title);
           ("image", JString image); ("rating", JNumber rating);
           ("students", JNumber students); ("price", JNumber price);
           ("match", JNumber mtch)].

Definition mockFetchTopPicks : result (list Value) :=
  Ok [ course "1" "Machine Learning Fundamentals" "/images/course1.jpg" "4.8" "12500" "49.99";
       course "2" "Advanced React Patterns" "/images/course2.jpg" "4.9" "8300" "59.99";
       course "3" "Data Science with Python" "/images/course3.jpg" "4.7" "15200" "44.99";
       course "4" "Full Stack Web Development" "/images/course4.jpg" "4.6" "10800" "69.99";
       course "5" "iOS App Development with Swift" "/images/course5.jpg" "4.5" "7600" "54.99" ].

Definition mockFetchTrending : result (list Value) :=
  Ok [ course "6" "Blockchain Development" "/images/course6.jpg" "4.7" "9200" "64.99";
       course "7" "UX/UI Design Principles" "/images/course7.jpg" "4.8" "11300" "49.99";
       course "8" "Cloud Computing with AWS" "/images/course8.jpg" "4.6" "8700" "59.99";
       course "9" "Cybersecurity Fundamentals" "/images/course9.jpg" "4.9" "13400" "74.99";
       course "10" "Digital Marketing Mastery" "/images/course10.jpg" "4.5" "10100" "44.99" ].

Definition mockFetchAiSuggestions : result (list Value) :=
  Ok [ suggestion "11" "Natural Language Processing" "/images/course11.jpg" "4.8" "7800" "69.99" "98";
       suggestion "12" "DevOps Engineering" "/images/course12.jpg" "4.7" "9100" "64.99" "95";
       suggestion "13" "Mobile App Design" "/images/course13.jpg" "4.6" "6500" "49.99" "92";
       suggestion "14" "Game Development with Unity" "/images/course14.jpg" "4.9" "12200" "79.99" "90";
       suggestion "15" "Business Intelligence" "/images/course15.jpg" "4.5" "8400" "54.99" "87" ].

Section FetchData.
(** The three awaited calls, each by how its promise settles.  The source
    binds them to the mocks above ("would be replaced with actual API
    calls"). *)
Variables fetchTopPicks fetchTrending fetchAiSuggestions
  : result (list Value).

(** [catch (error) { ... }] *)
Definition fetchData_catch (error : Thrown) : list Action :=
  [console_error "Error fetching data:" (ThrownArg error);
   setIsLoading false].

(** [fetchData]: three awaits in sequence, then the four setters; the
    first rejection jumps to the [catch]. *)
Definition fetchData : list Action :=
  call "mockFetchTopPicks" ::
  match fetchTopPicks with
  | Throw error => fetchData_catch error
  | Ok topPicksResponse =>
    call "mockFetchTrending" ::
    match fetchTrending with
    | Throw error => fetchData_catch error
    | Ok trendingResponse =>
      call "mockFetchAiSuggestions" ::
      match fetchAiSuggestions with
      | Throw error => fetchData_catch error
      | Ok aiSuggestionsResponse =>
          [setTopPicks topPicksResponse;
           setTrending (JArray trendingResponse);
           setAiSuggestions (fun _ => Ok aiSuggestionsResponse);
           setIsLoading false]
      end
    end
  end.
End FetchData.

(** ** React: committing the queued state updates *)

Definition apply (Date_now : Z) (s : State) (a : Action) : result State :=
  match a with
  | setTopPicks v =>
      Ok {| topPicks := v; trending := trending s;
            aiSuggestions := aiSuggestions s; isLoading := isLoading s;
            chatbotOpen := chatbotOpen s; notifications := notifications s |}
  | setTrending v =>
      Ok {| topPicks := topPicks s; trending := v;
            aiSuggestions := aiSuggestions s; isLoading := isLoading s;
            chatbotOpen := chatbotOpen s; notifications := notifications s |}
  | setAiSuggestions f =>
      next <- f (aiSuggestions s) ;;
      Ok {| topPicks := topPicks s; trending := trending s;
            aiSuggestions := next; isLoading := isLoading s;
            chatbotOpen := chatbotOpen s; notifications := notifications s |}
  | setIsLoading b =>
      Ok {| topPicks := topPicks s; trending := trending s;
            aiSuggestions := aiSuggestions s; isLoading := b;
            chatbotOpen := chatbotOpen s; notifications := notifications s |}
  | setChatbotOpen b =>
      Ok {| topPicks := topPicks s; trending := trending s;
            aiSuggestions := aiSuggestions s; isLoading := isLoading s;
            chatbotOpen := b; notifications := notifications s |}
  | setNotifications f =>
      next <- f Date_now (notifications s) ;;
      Ok {| topPicks := topPicks s; trending := trending s;
            aiSuggestions := aiSuggestions s; isLoading := isLoading s;
            chatbotOpen := chatbotOpen s; notifications := next |}
  | _ => Ok s
  end.

(** The setters of one handler run, applied in call order, up to the first
    updater that throws. *)
Fixpoint reduce (Date_now : Z) (s : State) (acts : list Action)
  : result State :=
  match acts with
  | [] => Ok s
  | a :: rest => s' <- apply Date_now s a ;; reduce Date_now s' rest
  end.

(** ** React: rendering the next state *)

(** What React takes as a child ([{course.title}]): it draws text and
    numbers, draws nothing for booleans, [null] and [undefined], takes an
    array as a list of children, and throws on a plain object. *)
Fixpoint valid_child (v : Value) : bool :=
  match v with
  | JObject _ => false
  | JArray items => forallb valid_child items
  | _ => true
  end.

(** The error is React's ("Objects are not valid as a React child (found:
    ...)" in a development build); only its beginning is kept. *)
Definition child (v : Value) : result unit :=
  if valid_child v then Ok tt
  else Throw (Error "Objects are not valid as a React child").

(** [key={course.id}]: React stores the key as a string unless it is
    [undefined]. *)
Definition key (v : Value) : result unit :=
  match v with
  | JUndefined => Ok tt
  | _ => _ <- ToString v ;; Ok tt
  end.

(** [CourseCard], by whether it renders or throws.  Its body reads the
    course in this order: [course.title], [Math.floor(course.rating)] for
    the stars (a conversion to a number, which throws exactly where the one
    to a string does), [course.rating], [course.students.toLocaleString()],
    [course.price] and, on an AI suggestion, [course.match]; React then
    takes the four values it was given as children.  The [onClick] closure
    reads [course.id] only when the button is clicked. *)
Definition CourseCard (course : Value) (isAiSuggestion : bool) : result unit :=
  title <- get course "title" ;;
  rating <- get course "rating" ;;
  _ <- ToString rating ;;
  students <- get course "students" ;;
  _ <- toLocaleString students ;;
  price <- get course "price" ;;
  percent <- (if isAiSuggestion then get course "match" else Ok JUndefined) ;;
  _ <- child title ;;
  _ <- child rating ;;
  _ <- child price ;;
  child percent.

(** [Carousel]: [courses.map(course => <div key={course.id}> <CourseCard
    .../> </div>)] throws unless [courses] is an array (nothing else has a
    [map] to call); the callback builds every element, reading each
    [course.id], before React renders the first card. *)
Definition Carousel (courses : Value) (isAiSuggestion : bool) : result unit :=
  match courses with
  | JArray items =>
      _ <- each (fun course => id_ <- get course "id" ;; key id_) items ;;
      each (fun course => CourseCard course isAiSuggestion) items
  | _ => Throw TypeError
  end.

(** The render of [Home], by whether it returns or throws: the spinner
    while [isLoading], the three carousels after.  The rest of the page is
    fixed markup, and the toasts draw [notification.message], a string. *)
Definition render (s : State) : result unit :=
  if isLoading s then Ok tt
  else
    _ <- Carousel (JArray (aiSuggestions s)) true ;;
    _ <- Carousel (JArray (topPicks s)) false ;;
    Carousel (trending s) false.

Definition is_setter (a : Action) : bool :=
  match a with
  | setTopPicks _ | setTrending _ | setAiSuggestions _ | setIsLoading _
  | setChatbotOpen _ | setNotifications _ => true
  | _ => false
  end.

(** One handler run as React sees it: the queued setters give the next
    state and, if there was a setter, the component renders it.  The page
    has no error boundary: when an updater or the render throws, nothing is
    committed.  (The setters of a run are taken together.  A React that
    renders after each of them draws the same three lists in between,
    [notifications] and [isLoading] aside, and the spinner until
    [setIsLoading(false)]; it keeps or loses the page on the same runs.) *)
Definition commit (Date_now : Z) (s : State) (acts : list Action)
  : result State :=
  s' <- reduce Date_now s acts ;;
  if existsb is_setter acts then _ <- render s' ;; Ok s' else Ok s'.

(** What running one handler does to the component.  [Handled s acts]: the
    handler returned after making the calls [acts], and [s] is the state
    after them.  [Uncaught e]: the handler threw [e] to its caller before
    making any call.  [RenderError e]: React threw [e] on the way to the
    next screen, which tears the component down. *)
Inductive Outcome : Type :=
| Handled (s : State) (acts : list Action)
| Uncaught (e : Thrown)
| RenderError (e : Thrown).

(** The handler and its setters alone, before anything is drawn: [Handled s
    acts] gives the state [s] the setters compute, [RenderError e] an
    updater that threw.  Whether the page can draw [s] is what [rendered]
    adds. *)
Definition deliver (Date_now : Z) (s : State) (r : result (list Action))
  : Outcome :=
  match r with
  | Throw e => Uncaught e
  | Ok acts =>
      match reduce Date_now s acts with
      | Ok s' => Handled s' acts
      | Throw e => RenderError e
      end
  end.

(** The handler, its setters and the render that follows them: [Handled s
    acts] only when React committed [s] and drew it. *)
Definition rendered (Date_now : Z) (s : State) (r : result (list Action))
  : Outcome :=
  match r with
  | Throw e => Uncaught e
  | Ok acts =>
      match commit Date_now s acts with
      | Ok s' => Handled s' acts
      | Throw e => RenderError e
      end
  end.

(** Messages delivered one after the other to a page that shows [s], at
    the given clock readings, each one drawn before the next arrives;
    [None] once one of them does not leave a rendered component. *)
Fixpoint deliver_all (s : State) (msgs : list (Z * Payload)) : option State :=
  match msgs with
  | [] => Some s
  | (Date_now, data) :: rest =>
      match rendered Date_now s (onmessage data) with
      | Handled s' _ => deliver_all s' rest
      | _ => None
      end
  end.

(** ** The WebSocket *)

Inductive ReadyState : Type := CONNECTING | OPEN | CLOSING | CLOSED.

Definition ReadyState_eqb (a b : ReadyState) : bool :=
  match a, b with
  | CONNECTING, CONNECTING | OPEN, OPEN | CLOSING, CLOSING | CLOSED, CLOSED =>
      true
  | _, _ => false
  end.

(** [socket.close()] on the ready state: it starts the closing handshake of
    a socket that is connecting or open and does nothing otherwise. *)
Definition close (readyState : ReadyState) : ReadyState :=
  match readyState with
  | CONNECTING | OPEN => CLOSING
  | CLOSING | CLOSED => readyState
  end.

(** [process.env.NEXT_PUBLIC_WS_URL || 'ws://localhost:8000/ws'] *)
Definition ws_url (NEXT_PUBLIC_WS_URL : option string) : string :=
  match NEXT_PUBLIC_WS_URL with
  | Some (String c rest) => String c rest
  | _ => "ws://localhost:8000/ws"
  end.

(** Body of the WebSocket effect (it also installs the four handlers). *)
Definition connect (NEXT_PUBLIC_WS_URL : option string) : list Action :=
  [new_WebSocket (ws_url NEXT_PUBLIC_WS_URL)].

(** Its cleanup:
    [if (socket && socket.readyState === WebSocket.OPEN) socket.close()]. *)
Definition disconnect (socket : option ReadyState) : list Action :=
  match socket with
  | None => []
  | Some readyState =>
      if ReadyState_eqb readyState OPEN then [socket_close] else []
  end.

(** ** The component in its browser *)

(** [socket] is the module-level handle ([None] before the effect assigns
    it); [timers] the pending timeouts as (handle, due time in ms);
    [expiry_cleanup] the handle captured by the cleanup the expiry effect
    returned on its last run.  [sockets_opened] and [close_calls] count the
    [new WebSocket] and [socket.close()] calls made so far; [uncaught] keeps
    what handlers threw to the browser. *)
Record World : Type := {
  mounted : bool;
  state : State;
  socket : option ReadyState;
  sockets_opened : nat;
  close_calls : nat;
  clock : Z;
  timers : list (nat * Z);
  next_handle : nat;
  expiry_cleanup : option nat;
  console : list Action;
  uncaught : list Thrown
}.

Definition set_mounted (b : bool) (w : World) : World :=
  {| mounted := b; state := state w; socket := socket w;
     sockets_opened := sockets_opened w; close_calls := close_calls w;
     clock := clock w; timers := timers w; next_handle := next_handle w;
     expiry_cleanup := expiry_cleanup w; console := console w;
     uncaught := uncaught w |}.

Definition set_state (s : State) (w : World) : World :=
  {| mounted := mounted w; state := s; socket := socket w;
     sockets_opened := sockets_opened w; close_calls := close_calls w;
     clock := clock w; timers := timers w; next_handle := next_handle w;
     expiry_cleanup := expiry_cleanup w; console := console w;
     uncaught := uncaught w |}.

Definition set_socket (r : option ReadyState) (w : World) : World :=
  {| mounted := mounted w; state := state w; socket := r;
     sockets_opened := sockets_opened w; close_calls := close_calls w;
     clock := clock w; timers := timers w; next_handle := next_handle w;
     expiry_cleanup := expiry_cleanup w; console := console w;
     uncaught := uncaught w |}.

Definition set_clock (t : Z) (w : World) : World :=
  {| mounted := mounted w; state := state w; socket := socket w;
     sockets_opened := sockets_opened w; close_calls := close_calls w;
     clock := t; timers := timers w; next_handle := next_handle w;
     expiry_cleanup := expiry_cleanup w; console := console w;
     uncaught := uncaught w |}.

Definition set_expiry_cleanup (c : option nat) (w : World) : World :=
  {| mounted := mounted w; state := state w; socket := socket w;
     sockets_opened := sockets_opened w; close_calls := close_calls w;
     clock := clock w; timers := timers w; next_handle := next_handle w;
     expiry_cleanup := c; console := console w; uncaught := uncaught w |}.

(** An exception that left a handler or a render. *)
Definition report (e : Thrown) (w : World) : World :=
  {| mounted := mounted w; state := state w; socket := socket w;
     sockets_opened := sockets_opened w; close_calls := close_calls w;
     clock := clock w; timers := timers w; next_handle := next_handle w;
     expiry_cleanup := expiry_cleanup w; console := console w;
     uncaught := uncaught w ++ [e] |}.

(** [setTimeout(callback, delay)]; the handle it returns is the
    [next_handle] it was called with. *)
Definition setTimeout (delay : Z) (w : World) : World :=
  {| mounted := mounted w; state := state w; socket := socket w;
     sockets_opened := sockets_opened w; close_calls := close_calls w;
     clock := clock w;
     timers := timers w ++ [(next_handle w, (clock w + delay)%Z)];
     next_handle := S (next_handle w);
     expiry_cleanup := expiry_cleanup w; console := console w;
     uncaught := uncaught w |}.

(** [clearTimeout(timer)]; also how a timer that fires leaves the pending
    list. *)
Definition clearTimeout (timer : nat) (w : World) : World :=
  {| mounted := mounted w; state := state w; socket := socket w;
     sockets_opened := sockets_opened w; close_calls := close_calls w;
     clock := clock w;
     timers := filter (fun p => negb (Nat.eqb (fst p) timer)) (timers w);
     next_handle := next_handle w;
     expiry_cleanup := expiry_cleanup w; console := console w;
     uncaught := uncaught w |}.

(** The calls of a handler that act outside React state. *)
Definition effect (w : World) (a : Action) : World :=
  match a with
  | console_log _ _ | console_error _ _ =>
      {| mounted := mounted w; state := state w; socket := socket w;
         sockets_opened := sockets_opened w; close_calls := close_calls w;
         clock := clock w; timers := timers w; next_handle := next_handle w;
         expiry_cleanup := expiry_cleanup w; console := console w ++ [a];
         uncaught := uncaught w |}
  | new_WebSocket _ =>
      {| mounted := mounted w; state := state w; socket := Some CONNECTING;
         sockets_opened := S (sockets_opened w); close_calls := close_calls w;
         clock := clock w; timers := timers w; next_handle := next_handle w;
         expiry_cleanup := expiry_cleanup w; console := console w;
         uncaught := uncaught w |}
  | socket_close =>
      {| mounted := mounted w; state := state w;
         socket := option_map close (socket w);
         sockets_opened := sockets_opened w; close_calls := S (close_calls w);
         clock := clock w; timers := timers w; next_handle := next_handle w;
         expiry_cleanup := expiry_cleanup w; console := console w;
         uncaught := uncaught w |}
  | _ => w
  end.

(** The cleanup the expiry effect returned on its last run, if it returned
    one: [() => clearTimeout(timer)]. *)
Definition expiry_cleaned (w : World) : World :=
  match expiry_cleanup w with
  | Some timer => clearTimeout timer w
  | None => w
  end.

(** The notification-expiry effect, run after a commit that changed
    [notifications]: first the cleanup of the previous run, then
    [[
      if (notifications.length > 0) {
        const timer = setTimeout(() => { setNotifications(prev => prev.slice(1)); }, 5000);
        return () => clearTimeout(timer);
      }
    ]] *)
Definition expiry_effect (w : World) : World :=
  let w := expiry_cleaned w in
  if (0 <? List.length (notifications (state w)))%nat then
    let timer := next_handle w in
    set_expiry_cleanup (Some timer) (setTimeout 5000 w)
  else set_expiry_cleanup None w.

(** Every updater in the source builds a fresh array, so [notifications]
    changes identity exactly when a handler called [setNotifications]. *)
Definition sets_notifications (a : Action) : bool :=
  match a with
  | setNotifications _ => true
  | _ => false
  end.

(** Unmounting runs the cleanups of the two effects that have one. *)
Definition unmount (w : World) : World :=
  let w := fold_left effect (disconnect (socket w)) w in
  let w := expiry_cleaned w in
  set_mounted false (set_expiry_cleanup None w).

(** Running a handler: an exception it throws goes to the browser; else its
    outside calls take effect, React commits and renders the queued setters
    (ignored once unmounted) and re-runs the expiry effect if
    [notifications] changed.  An updater or a render that throws unmounts
    the component, with the state left as it was. *)
Definition dispatch (w : World) (r : result (list Action)) : World :=
  match r with
  | Throw e => report e w
  | Ok acts =>
      let w := fold_left effect acts w in
      if mounted w then
        match commit (clock w) (state w) acts with
        | Ok s' =>
            let w := set_state s' w in
            if existsb sets_notifications acts then expiry_effect w else w
        | Throw e => unmount (report e w)
        end
      else w
  end.

(** First render at time [t0], as a production build renders it (each
    effect runs once): the spinner is drawn, the effects run, and the mock
    fetches settle before any other event. *)
Definition mount (NEXT_PUBLIC_WS_URL : option string) (t0 : Z) : World :=
  let w := {| mounted := true; state := initial_state; socket := None;
              sockets_opened := 0; close_calls := 0; clock := t0;
              timers := []; next_handle := 1; expiry_cleanup := None;
              console := []; uncaught := [] |} in
  let w := fold_left effect (connect NEXT_PUBLIC_WS_URL) w in
  let w := expiry_effect w in
  dispatch w (Ok (fetchData mockFetchTopPicks mockFetchTrending
                            mockFetchAiSuggestions)).

(** ** Events *)

Inductive Event : Type :=
| SocketOpens
| Message (data : Payload)
| SocketError
| SocketCloses
| Dismiss (notification : Notification)
| TimerFires (timer : nat)
| Unmount.

Definition Notification_eqb (a b : Notification) : bool :=
  Z.eqb (id a) (id b) && String.eqb (message a) (message b).

(** Time does not run backwards and a timeout fires when it is due: nothing
    happens at [t] while a pending timer was due before [t]. *)
Definition on_time (w : World) (t : Z) : bool :=
  Z.leb (clock w) t && forallb (fun p => Z.leb t (snd p)) (timers w).

Definition enabled (w : World) (t : Z) (ev : Event) : bool :=
  on_time w t &&
  match ev with
  | SocketOpens =>
      match socket w with Some CONNECTING => true | _ => false end
  | Message _ =>
      match socket w with Some OPEN => true | _ => false end
  | SocketError | SocketCloses =>
      match socket w with Some CLOSED | None => false | _ => true end
  | Dismiss n =>
      mounted w && existsb (Notification_eqb n) (notifications (state w))
  | TimerFires timer =>
      existsb (fun p => Nat.eqb (fst p) timer && Z.eqb (snd p) t) (timers w)
  | Unmount => mounted w
  end.

Definition step (w : World) (te : Z * Event) : option World :=
  let (t, ev) := te in
  if enabled w t ev then
    let w := set_clock t w in
    Some match ev with
         | SocketOpens => dispatch (set_socket (Some OPEN) w) onopen
         | Message data => dispatch w (onmessage data)
         | SocketError => dispatch w onerror
         | SocketCloses => dispatch (set_socket (Some CLOSED) w) onclose
         | Dismiss n => dispatch w (onClose n)
         | TimerFires timer => dispatch (clearTimeout timer w) expire
         | Unmount => unmount w
         end
  else None.

Fixpoint run (w : World) (trace : list (Z * Event)) : option World :=
  match trace with
  | [] => Some w
  | te :: rest =>
      match step w te with
      | Some w' => run w' rest
      | None => None
      end
  end.

(** The next timeout to fire: the pending timer that is due first. *)
Fixpoint next_due (ts : list (nat * Z)) : option (nat * Z) :=
  match ts with
  | [] => None
  | p :: rest =>
      match next_due rest with
      | Some q => if Z.leb (snd p) (snd q) then Some p else Some q
      | None => Some p
      end
  end.

(** Let time pass until the next timeout fires. *)
Definition fire_next (w : World) : option World :=
  match next_due (timers w) with
  | Some (timer, due) => step w (due, TimerFires timer)
  | None => None
  end.

Fixpoint fire_times (n : nat) (w : World) : option World :=
  match n with
  | O => Some w
  | S k =>
      match fire_next w with
      | Some w' => fire_times k w'
      | None => None
      end
  end.

End Home.

(* ================================================================== *)
(** * The dashboard: component [Dashboard] *)
(* ================================================================== *)

Module Dashboard.
Import JS.

Record State : Type := {
  learningData : Value;
  recommendations : Value;
  topCourses : Value;
  loading : bool;
  error : option string
}.

Definition initial_state : State :=
  {| learningData := JNull; recommendations := JArray [];
     topCourses := JArray []; loading := true; error := None |}.

Inductive Action : Type :=
| fetch (url : string)
| setLearningData (v : Value)
| setRecommendations (v : Value)
| setTopCourses (v : Value)
| setLoading (b : bool)
| setError (text : string)
| console_error (err : Thrown).

(** What [await fetch(url)] resolves to: [response.ok] and how
    [await response.json()] settles. *)
Record Response : Type := { ok : bool; json : result Value }.

(** ** Sample data *)

Definition week (name completed target : string) : Value :=
  JObject [("name", JString name); ("completed", JNumber completed);
           ("target", JNumber target)].

Definition skill (name value : string) : Value :=
  JObject [("name", JString name); ("value", JNumber value)].

Definition progressData : Value :=
  JArray [ week "Week 1" "5" "7"; week "Week 2" "8" "7";
           week "Week 3" "6" "7"; week "Week 4" "9" "7";
           week "Week 5" "11" "7"; week "Week 6" "8" "7" ].

Definition skillsData : Value :=
  JArray [ skill "Programming" "75"; skill "Data Science" "60";
           skill "Design" "45"; skill "Business" "30";
           skill "Marketing" "20" ].

Definition sample (i title category rating image : string) : Value :=
  JObject [("id", JNumber i); ("title", JString title);
           ("category", JString category); ("rating", JNumber rating);
           ("image", JString image)].

Definition fallback_learningData : Value :=
  JObject [("progressData", progressData); ("skillsData", skillsData);
           ("completedCourses", JNumber "12"); ("totalHours", JNumber "48");
           ("streak", JNumber "7")].

Definition fallback_recommendations : Value :=
  JArray [ sample "1" "Machine Learning Fundamentals" "Data Science" "4.8" "/images/course1.jpg";
           sample "2" "Advanced React Patterns" "Programming" "4.7" "/images/course2.jpg";
           sample "3" "Data Visualization with D3" "Data Science" "4.5" "/images/course3.jpg";
           sample "4" "UX Design Principles" "Design" "4.6" "/images/course4.jpg" ].

Definition fallback_topCourses : Value :=
  JArray [ sample "5" "Python for Beginners" "Programming" "4.9" "/images/course5.jpg";
           sample "6" "Web Development Bootcamp" "Programming" "4.8" "/images/course6.jpg";
           sample "7" "Digital Marketing Essentials" "Marketing" "4.6" "/images/course7.jpg";
           sample "8" "Business Analytics" "Business" "4.7" "/images/course8.jpg" ].

(** ** The three fetchers *)

(** The [try] block up to its setter:
    [[
      const response = await fetch(url);
      if (!response.ok) throw new Error(failure);
      const data = await response.json();
    ]] *)
Definition attempt (failure : string) (settled : result Response)
  : result Value :=
  response <- settled ;;
  if negb (ok response) then Throw (Error failure)
  else json response.

(** Each fetcher from the point where [fetch] has settled. *)
Definition fetchLearningData (settled : result Response) : list Action :=
  match attempt "Failed to fetch learning data" settled with
  | Ok data => [setLearningData data]
  | Throw err =>
      [setError "Error loading learning data"; console_error err;
       setLearningData fallback_learningData]
  end.

Definition fetchRecommendations (settled : result Response) : list Action :=
  match attempt "Failed to fetch recommendations" settled with
  | Ok data => [setRecommendations data]
  | Throw err =>
      [setError "Error loading recommendations"; console_error err;
       setRecommendations fallback_recommendations]
  end.

Definition fetchTopCourses (settled : result Response) : list Action :=
  match attempt "Failed to fetch top courses" settled with
  | Ok data => [setTopCourses data]
  | Throw err =>
      [setError "Error loading top courses"; console_error err;
       setTopCourses fallback_topCourses]
  end.

Inductive Fetcher : Type := LearningData | Recommendations | TopCourses.

Definition url (f : Fetcher) : string :=
  match f with
  | LearningData => "/api/user/learning-progress"
  | Recommendations => "/api/recommendations/personalized"
  | TopCourses => "/api/courses/trending"
  end.

Definition continue (settled : Fetcher -> result Response) (f : Fetcher)
  : list Action :=
  match f with
  | LearningData => fetchLearningData (settled LearningData)
  | Recommendations => fetchRecommendations (settled Recommendations)
  | TopCourses => fetchTopCourses (settled TopCourses)
  end.

(** The effect:
    [[
      Promise.all([fetchLearningData(), fetchRecommendations(), fetchTopCourses()])
        .finally(() => setLoading(false));
    ]]
    The three requests are issued in program order; the fetchers then resume
    in the order [order] in which their requests settle. *)
Definition populate (settled : Fetcher -> result Response)
  (order : list Fetcher) : list Action :=
  [fetch (url LearningData); fetch (url Recommendations);
   fetch (url TopCourses)]
  ++ flat_map (continue settled) order
  ++ [setLoading false].

Definition apply (s : State) (a : Action) : State :=
  match a with
  | setLearningData v =>
      {| learningData := v; recommendations := recommendations s;
         topCourses := topCourses s; loading := loading s; error := error s |}
  | setRecommendations v =>
      {| learningData := learningData s; recommendations := v;
         topCourses := topCourses s; loading := loading s; error := error s |}
  | setTopCourses v =>
      {| learningData := learningData s; recommendations := recommendations s;
         topCourses := v; loading := loading s; error := error s |}
  | setLoading b =>
      {| learningData := learningData s; recommendations := recommendations s;
         topCourses := topCourses s; loading := b; error := error s |}
  | setError text =>
      {| learningData := learningData s; recommendations := recommendations s;
         topCourses := topCourses s; loading := loading s;
         error := Some text |}
  | fetch _ | console_error _ => s
  end.

Definition reduce (s : State) (acts : list Action) : State :=
  fold_left apply acts s.

(** The list a fetcher fills, and the sample data it falls back to. *)
Definition shown (f : Fetcher) (s : State) : Value :=
  match f with
  | LearningData => learningData s
  | Recommendations => recommendations s
  | TopCourses => topCourses s
  end.

Definition fallback (f : Fetcher) : Value :=
  match f with
  | LearningData => fallback_learningData
  | Recommendations => fallback_recommendations
  | TopCourses => fallback_topCourses
  end.

Definition failure (f : Fetcher) : string :=
  match f with
  | LearningData => "Failed to fetch learning data"
  | Recommendations => "Failed to fetch recommendations"
  | TopCourses => "Failed to fetch top courses"
  end.

Definition is_fetch (u : string) (a : Action) : bool :=
  match a with
  | fetch u' => String.eqb u u'
  | _ => false
  end.

End Dashboard.


(* ================================================================== *)
(** * The star row of a course card *)
(* ================================================================== *)

Module Rating.

(** Both pages draw
    [[
      [...Array(5)].map((_, i) => ... i < Math.floor(course.rating) ? lit : 'text-gray-300' ...)
    ]]
    where [lit] is ['fill-current'] on the landing page and
    ['text-yellow-400'] on the dashboard.  The rating is a finite number,
    taken with its exact value. *)
Definition lit (rating : QArith_base.Q) (i : Z) : bool :=
  (i <? Qround.Qfloor rating)%Z.

Definition stars (rating : QArith_base.Q) : list bool :=
  map (lit rating) [0; 1; 2; 3; 4]%Z.

End Rating.
(* ================================================================== *)
(** * Vocabulary of the properties *)
(* ================================================================== *)

Import JS Home.

(** ** Messages *)

(** [data] is a new-recommendation envelope enclosing [course]. *)
Definition new_recommendation (course : Value) (data : Payload) : Prop :=
  exists v, data = Encoded v
            /\ get v "type" = Ok (JString "new_recommendation")
            /\ get v "course" = Ok course.

(** [data] is a trending-update envelope enclosing [courses]. *)
Definition trending_update (courses : Value) (data : Payload) : Prop :=
  exists v, data = Encoded v
            /\ get v "type" = Ok (JString "trending_update")
            /\ get v "courses" = Ok courses.

(** [data] decodes and its discriminator reads [kind]. *)
Definition of_kind (kind : Value) (data : Payload) : Prop :=
  exists v, data = Encoded v /\ get v "type" = Ok kind.

(** The course has a title the toast text can be built from. *)
Definition titled (text : string) (course : Value) : Prop :=
  exists title, get course "title" = Ok title /\ ToString title = Ok text.

(** The smallest envelope of a kind. *)
Definition envelope (kind : string) (field : string) (payload : Value)
  : Payload :=
  Encoded (JObject [("type", JString kind); (field, payload)]).

(** A course with every field the mocks give theirs, and one with an
    identifier and a title and nothing else. *)
Definition titled_course (i title : string) : Value :=
  suggestion i title "/images/course.jpg" "4.5" "1200" "39.99" "91".

Definition title_only (i title : string) : Value :=
  JObject [("id", JNumber i); ("title", JString title)].

(** ** What the page can draw *)

(** The page can draw a card for [course]: a carousel that holds nothing
    else renders. *)
Definition renderable (isAiSuggestion : bool) (course : Value) : Prop :=
  Carousel (JArray [course]) isAiSuggestion = Ok tt.

(** ** States *)

Definition toast (Date_now : Z) (text : string) : Notification :=
  {| id := Date_now; message := ("New recommendation: " ++ text)%string |}.

Definition with_suggestion (course : Value) (n : Notification) (s : State)
  : State :=
  {| topPicks := topPicks s; trending := trending s;
     aiSuggestions := firstn 10 (course :: aiSuggestions s);
     isLoading := isLoading s; chatbotOpen := chatbotOpen s;
     notifications := notifications s ++ [n] |}.

Definition with_trending (courses : Value) (s : State) : State :=
  {| topPicks := topPicks s; trending := courses;
     aiSuggestions := aiSuggestions s; isLoading := isLoading s;
     chatbotOpen := chatbotOpen s; notifications := notifications s |}.

Definition with_notifications (l : list Notification) (s : State) : State :=
  {| topPicks := topPicks s; trending := trending s;
     aiSuggestions := aiSuggestions s; isLoading := isLoading s;
     chatbotOpen := chatbotOpen s; notifications := l |}.

Definition outcome_state (o : Outcome) : option State :=
  match o with
  | Handled s _ => Some s
  | _ => None
  end.

(** ** Calls *)

Definition is_console (a : Action) : bool :=
  match a with
  | console_log _ _ | console_error _ _ => true
  | _ => false
  end.

(** Handlers never touch the socket: only the two effects do. *)
Definition off_socket (a : Action) : bool :=
  match a with
  | new_WebSocket _ | socket_close => false
  | _ => true
  end.

(** A failure that is logged and nothing else: the handler returned, every
    call it made went to the console (so no setter, no new socket), and the
    state is as before. *)
Definition only_logged (s : State) (o : Outcome) : Prop :=
  exists acts, o = Handled s acts
               /\ acts <> [] /\ forallb is_console acts = true.

(** ** Reachable worlds *)

Definition reachable (w : World) : Prop :=
  exists NEXT_PUBLIC_WS_URL t0 trace,
    run (mount NEXT_PUBLIC_WS_URL t0) trace = Some w.

(** Every pending timeout is the one the expiry cleanup would clear. *)
Definition tidy (w : World) : Prop :=
  forall p, In p (timers w) -> expiry_cleanup w = Some (fst p).

(** What the expiry effect leaves pending when it runs at time [t] with
    [next] as the next timer handle. *)
Definition scheduled (next : nat) (t : Z) (queue : list Notification)
  : list (nat * Z) :=
  match queue with
  | [] => []
  | _ :: _ => [(next, (t + 5000)%Z)]
  end.

(** The shape of the timers between two events. *)
Definition timers_ok (w : World) : Prop :=
  if mounted w then
    match notifications (state w) with
    | [] => timers w = [] /\ expiry_cleanup w = None
    | _ :: _ =>
        exists timer due,
          timers w = [(timer, due)] /\ expiry_cleanup w = Some timer
          /\ (clock w <= due)%Z /\ timer < next_handle w
    end
  else timers w = [] /\ expiry_cleanup w = None.

(** The shape of the channel between two events: the one socket the mount
    opened, and no [close()] while the component is mounted. *)
Definition channel_ok (w : World) : Prop :=
  sockets_opened w = 1
  /\ socket w <> None
  /\ (mounted w = true -> close_calls w = 0)
  /\ close_calls w <= 1.

(** A mounted component is showing its state: the last render returned. *)
Definition drawn (w : World) : Prop :=
  mounted w = true -> render (state w) = Ok tt.

(** Everything of a world but its console. *)
Definition frame (w : World) :=
  (mounted w, state w, socket w, sockets_opened w, close_calls w,
   (clock w, timers w, next_handle w, expiry_cleanup w, uncaught w)).

(** ** What one handler run can do to a world *)

(** The channel after the socket cleanup ran on it. *)
Definition after_disconnect (socket : option ReadyState) : option ReadyState :=
  match socket with
  | Some OPEN => Some CLOSING
  | other => other
  end.

Definition closes (socket : option ReadyState) : nat :=
  match socket with
  | Some OPEN => 1
  | _ => 0
  end.

(** The component stayed mounted and the channel was not touched. *)
Definition kept (w w' : World) : Prop :=
  mounted w' = mounted w /\ socket w' = socket w
  /\ close_calls w' = close_calls w /\ sockets_opened w' = sockets_opened w
  /\ clock w' = clock w.

(** The queue and the timers are as before. *)
Definition queue_untouched (w w' : World) : Prop :=
  notifications (state w') = notifications (state w)
  /\ timers w' = timers w /\ expiry_cleanup w' = expiry_cleanup w
  /\ next_handle w' = next_handle w.

(** The expiry effect ran: whatever was pending is cancelled, and a fresh
    timer is pending exactly when the queue is not empty. *)
Definition rescheduled (w w' : World) : Prop :=
  timers w' = scheduled (next_handle w) (clock w) (notifications (state w'))
  /\ expiry_cleanup w'
     = match notifications (state w') with
       | [] => None
       | _ :: _ => Some (next_handle w)
       end
  /\ next_handle w'
     = match notifications (state w') with
       | [] => next_handle w
       | _ :: _ => S (next_handle w)
       end.

(** The component was unmounted: both cleanups ran. *)
Definition torn_down (w w' : World) : Prop :=
  mounted w' = false
  /\ timers w' = [] /\ expiry_cleanup w' = None
  /\ socket w' = after_disconnect (socket w)
  /\ close_calls w' = closes (socket w) + close_calls w
  /\ sockets_opened w' = sockets_opened w.

(** What the transport does to the ready state when it delivers [ev]. *)
Definition socket_after (ev : Event) (socket : option ReadyState)
  : option ReadyState :=
  match ev with
  | SocketOpens => Some OPEN
  | SocketCloses => Some CLOSED
  | _ => socket
  end.

(** The handler (or timer callback) an event runs; [Unmount] runs none. *)
Definition handler (ev : Event) : result (list Action) :=
  match ev with
  | SocketOpens => onopen
  | Message data => onmessage data
  | SocketError => onerror
  | SocketCloses => onclose
  | Dismiss n => onClose n
  | TimerFires _ => expire
  | Unmount => Ok []
  end.

(** ** Scenarios *)

(** Two recommendations of complete courses. *)

Definition rust : Payload :=
  envelope "new_recommendation" "course" (titled_course "21" "Intro to Rust").

Definition go : Payload :=
  envelope "new_recommendation" "course" (titled_course "22" "Intro to Go").

(** Mounted at time 0, the socket opens, and two recommendations arrive 4 s
    apart. *)
Definition two_in_a_row : list (Z * Event) :=
  [(0%Z, SocketOpens); (0%Z, Message rust); (4000%Z, Message go)].

(** The world right after the second of them. *)
Definition after_two_in_a_row : World :=
  match run (mount None 0) two_in_a_row with
  | Some w => w
  | None => mount None 0
  end.

(** The world 6 s after mount, when nothing else happened but a channel
    error at that moment. *)
Definition six_seconds_in : World :=
  match run (mount None 0) (two_in_a_row ++ [(6000%Z, SocketError)]) with
  | Some w => w
  | None => mount None 0
  end.

(** The bound on a toast's life: in a mounted component no toast of the
    queue was inserted more than [ms] ago ([id] is the [Date.now()] of the
    insertion). *)
Definition expires_within (ms : Z) : Prop :=
  forall w, reachable w -> mounted w = true ->
            forall n, In n (notifications (state w)) ->
                      (clock w <= id n + ms)%Z.

(** Mounted at time 0, and the socket has opened 1 ms later. *)
Definition opened : World :=
  match run (mount None 0) [(1%Z, SocketOpens)] with
  | Some w => w
  | None => mount None 0
  end.

(** A new-recommendation envelope that encloses no course. *)
Definition courseless : Payload :=
  Encoded (JObject [("type", JString "new_recommendation")]).

(** Some fetch of the landing page's data population rejects. *)
Definition population_fails (tp tr ai : result (list Value)) : Prop :=
  match tp, tr, ai with
  | Ok _, Ok _, Ok _ => False
  | _, _, _ => True
  end.

(** The functions a run called, in call order. *)
Definition called (acts : list Action) : list string :=
  flat_map (fun a => match a with call fn => [fn] | _ => [] end) acts.

(** A queue with two toasts, the second of which the user closes. *)
Definition two_toasts : State :=
  with_notifications [toast 1 "A"; toast 2 "B"] initial_state.

(** ** Ages of the toasts *)

(** The toasts of the queue were inserted in the past, the queue holds them
    in insertion order, and no pending timeout is due before any of them has
    been in the queue for 5000 ms. *)
Definition ages_ok (w : World) : Prop :=
  (forall n, In n (notifications (state w)) -> (id n <= clock w)%Z)
  /\ StronglySorted (fun a b => (id a <= id b)%Z) (notifications (state w))
  /\ (forall n p, In n (notifications (state w)) -> In p (timers w) ->
                  (id n + 5000 <= snd p)%Z).

(** One recommendation at time 0, then one more every 4 s, [k] times. *)
Definition drip (k : nat) : list (Z * Event) :=
  [(0%Z, SocketOpens); (0%Z, Message rust)]
  ++ map (fun i => ((4000 * Z.of_nat i)%Z, Message go)) (seq 1 k).

(** ** The dashboard's banner *)

(** The text a fetcher puts in [error] when its request fails. *)
Definition banner (f : Dashboard.Fetcher) : string :=
  match f with
  | Dashboard.LearningData => "Error loading learning data"
  | Dashboard.Recommendations => "Error loading recommendations"
  | Dashboard.TopCourses => "Error loading top courses"
  end.

Definition fails (settled : Dashboard.Fetcher -> result Dashboard.Response)
  (f : Dashboard.Fetcher) : bool :=
  match Dashboard.attempt (Dashboard.failure f) (settled f) with
  | Ok _ => false
  | Throw _ => true
  end.

(** The banner of the last fetcher of [order] whose request fails. *)
Definition last_failure (settled : Dashboard.Fetcher -> result Dashboard.Response)
  (order : list Dashboard.Fetcher) : option string :=
  match filter (fails settled) (rev order) with
  | f :: _ => Some (banner f)
  | [] => None
  end.

(** ** More scenarios *)

(** The toasts a batch of messages queues, given the text of each title. *)
Definition toasts (msgs : list (Z * Payload)) (texts : list string)
  : list Notification :=
  map (fun p => toast (fst (fst p)) (snd p)) (combine msgs texts).
(* ================================================================== *)
(** * What the page can draw *)
(* ================================================================== *)

Lemma each_ok {A : Type} (f : A -> result unit) (l : list A) :
  each f l = Ok tt <-> Forall (fun a => f a = Ok tt) l.
Proof.
  induction l as [|a l IH]; cbn [each].
  - split; [constructor | reflexivity].
  - destruct (f a) as [[]|e] eqn:E; cbn [bind].
    + rewrite IH. split.
      * intros H. constructor; [exact E | exact H].
      * intros H. inversion H; assumption.
    + split; [discriminate|]. intros H. inversion H. congruence.
Qed.

Lemma bind_ok {A : Type} (r : result unit) (k : unit -> result A) (a : A) :
  bind r k = Ok a <-> r = Ok tt /\ k tt = Ok a.
Proof.
  destruct r as [[]|e]; cbn [bind].
  - split; [intros H; split; [reflexivity|exact H] | intros [_ H]; exact H].
  - split; [discriminate | intros [H _]; discriminate].
Qed.

Lemma renderable_card (isAiSuggestion : bool) (c : Value) :
  renderable isAiSuggestion c
  <-> (id_ <- get c "id" ;; key id_) = Ok tt
      /\ CourseCard c isAiSuggestion = Ok tt.
Proof.
  unfold renderable, Carousel. rewrite bind_ok. cbv beta.
  rewrite !each_ok. split.
  - intros [Hk Hc]. inversion Hk. inversion Hc. split; assumption.
  - intros [Hk Hc]. split; constructor; auto.
Qed.

(** A carousel renders exactly when it is given an array of courses each of
    which it could draw alone. *)
Lemma Carousel_ok (items : list Value) (isAiSuggestion : bool) :
  Carousel (JArray items) isAiSuggestion = Ok tt
  <-> Forall (renderable isAiSuggestion) items.
Proof.
  unfold Carousel. rewrite bind_ok. cbv beta. rewrite !each_ok.
  rewrite !Forall_forall. split.
  - intros [Hk Hc] c Hin. apply renderable_card. split; auto.
  - intros H. split; intros c Hin;
      apply (proj1 (renderable_card isAiSuggestion c) (H c Hin)).
Qed.

Lemma Carousel_array (courses : Value) (isAiSuggestion : bool) :
  Carousel courses isAiSuggestion = Ok tt ->
  exists items, courses = JArray items.
Proof.
  destruct courses; try discriminate. intros _. eexists. reflexivity.
Qed.

(** What a rendered state consists of. *)
Lemma render_ok (s : State) :
  render s = Ok tt
  <-> isLoading s = true
      \/ (Forall (renderable true) (aiSuggestions s)
          /\ Forall (renderable false) (topPicks s)
          /\ exists items, trending s = JArray items
                           /\ Forall (renderable false) items).
Proof.
  unfold render. destruct (isLoading s).
  - split; [left; reflexivity | reflexivity].
  - rewrite !bind_ok, !Carousel_ok. split.
    + intros (Ha & Ht & Hr). right. split; [exact Ha|]. split; [exact Ht|].
      destruct (Carousel_array _ _ Hr) as [items E]. exists items.
      split; [exact E|]. rewrite E in Hr. apply Carousel_ok, Hr.
    + intros [H|(Ha & Ht & items & E & Hr)]; [discriminate|].
      split; [exact Ha|]. split; [exact Ht|]. rewrite E. apply Carousel_ok, Hr.
Qed.

Lemma Forall_firstn {A : Type} (P : A -> Prop) (n : nat) (l : list A) :
  Forall P l -> Forall P (firstn n l).
Proof.
  revert l. induction n as [|n IH]; intros [|a l] H; cbn [firstn];
    try constructor; inversion H; auto.
Qed.

(** A drawn page stays drawn when it gains a suggestion it can draw. *)
Lemma render_with_suggestion (c : Value) (n : Notification) (s : State) :
  render s = Ok tt -> renderable true c ->
  render (with_suggestion c n s) = Ok tt.
Proof.
  rewrite !render_ok. cbn [with_suggestion isLoading aiSuggestions topPicks
                             trending].
  intros [H|(Ha & Ht & Hr)] Hc; [left; exact H|]. right.
  split; [|split; assumption].
  apply Forall_firstn. constructor; assumption.
Qed.

Lemma render_with_trending (items : list Value) (s : State) :
  render s = Ok tt -> Forall (renderable false) items ->
  render (with_trending (JArray items) s) = Ok tt.
Proof.
  rewrite !render_ok. cbn [with_trending isLoading aiSuggestions topPicks
                             trending].
  intros [H|(Ha & Ht & _)] Hc; [left; exact H|]. right.
  split; [exact Ha|]. split; [exact Ht|]. exists items. split; [reflexivity|exact Hc].
Qed.

Lemma render_with_notifications (l : list Notification) (s : State) :
  render (with_notifications l s) = render s.
Proof. reflexivity. Qed.

Lemma titled_course_renderable (i title : string) (isAiSuggestion : bool) :
  renderable isAiSuggestion (titled_course i title).
Proof. destruct isAiSuggestion; reflexivity. Qed.



(** ** Commits *)

Lemma commit_Ok (t : Z) (s s' : State) (acts : list Action) :
  commit t s acts = Ok s' ->
  reduce t s acts = Ok s'
  /\ (existsb is_setter acts = true -> render s' = Ok tt).
Proof.
  unfold commit. destruct (reduce t s acts) as [s1|e]; cbn [bind];
    [|discriminate].
  destruct (existsb is_setter acts).
  - destruct (render s1) as [[]|e] eqn:R; cbn [bind]; [|discriminate].
    intros [= <-]. split; [reflexivity|]. intros _. exact R.
  - intros [= <-]. split; [reflexivity | discriminate].
Qed.

Lemma commit_rendered (t : Z) (s s' : State) (acts : list Action) :
  reduce t s acts = Ok s' -> render s' = Ok tt -> commit t s acts = Ok s'.
Proof.
  intros Hr Hd. unfold commit. rewrite Hr. cbn [bind]. rewrite Hd. cbn [bind].
  destruct (existsb is_setter acts); reflexivity.
Qed.

Lemma commit_Throw (t : Z) (s : State) (acts : list Action) (e : Thrown) :
  reduce t s acts = Throw e -> commit t s acts = Throw e.
Proof. intros Hr. unfold commit. rewrite Hr. reflexivity. Qed.

(** Without a setter the state is as before, and nothing is drawn again. *)
Lemma reduce_no_setter (acts : list Action) :
  existsb is_setter acts = false -> forall t s, reduce t s acts = Ok s.
Proof.
  induction acts as [|a acts IH]; simpl; intros H t s; [reflexivity|].
  apply orb_false_elim in H as [Ha Hr].
  destruct a; simpl in Ha; try discriminate; simpl; apply IH, Hr.
Qed.

Lemma commit_no_setter (acts : list Action) :
  existsb is_setter acts = false -> forall t s, commit t s acts = Ok s.
Proof.
  intros H t s. unfold commit. rewrite (reduce_no_setter acts H). cbn [bind].
  rewrite H. reflexivity.
Qed.

(** [rendered] is [deliver] followed by the render, when there is one. *)
Lemma rendered_deliver (t : Z) (s : State) (r : result (list Action)) :
  rendered t s r
  = match deliver t s r with
    | Handled s' acts =>
        if existsb is_setter acts then
          match render s' with
          | Ok _ => Handled s' acts
          | Throw e => RenderError e
          end
        else Handled s' acts
    | other => other
    end.
Proof.
  unfold rendered, deliver, commit. destruct r as [acts|e]; [|reflexivity].
  destruct (reduce t s acts) as [s'|e]; cbn [bind]; [|reflexivity].
  destruct (existsb is_setter acts); [|reflexivity].
  destruct (render s') as [[]|e]; reflexivity.
Qed.

Lemma rendered_Handled (t : Z) (s s' : State) (r : result (list Action))
  (acts : list Action) :
  deliver t s r = Handled s' acts -> render s' = Ok tt ->
  rendered t s r = Handled s' acts.
Proof.
  unfold deliver, rendered. destruct r as [a|e]; [|discriminate].
  destruct (reduce t s a) as [s1|e] eqn:Hr; [|discriminate].
  intros [= <- <-] Hd. rewrite (commit_rendered t s s1 a Hr Hd). reflexivity.
Qed.

(* ================================================================== *)
(** * The message handler *)
(* ================================================================== *)

Lemma strict_equals_string_false (v : Value) (s : string) :
  v <> JString s -> strict_equals_string v s = false.
Proof.
  destruct v as [| | |?|s'| |]; simpl; try reflexivity.
  intros Hne. destruct (String.eqb_spec s' s); [subst; congruence | reflexivity].
Qed.

Lemma envelope_new_recommendation (c : Value) :
  new_recommendation c (envelope "new_recommendation" "course" c).
Proof.
  exists (JObject [("type", JString "new_recommendation"); ("course", c)]).
  repeat split.
Qed.

Lemma envelope_trending_update (cs : Value) :
  trending_update cs (envelope "trending_update" "courses" cs).
Proof.
  exists (JObject [("type", JString "trending_update"); ("courses", cs)]).
  repeat split.
Qed.

Lemma titled_course_titled (i title : string) :
  titled title (titled_course i title).
Proof. exists (JString title). split; reflexivity. Qed.

(** A new-recommendation message, when the title converts: the course goes
    to the front of the capped list and one toast to the back of the queue. *)
Lemma deliver_new_recommendation Date_now s data course text :
  new_recommendation course data -> titled text course ->
  exists acts,
    deliver Date_now s (onmessage data)
    = Handled (with_suggestion course (toast Date_now text) s) acts.
Proof.
  intros (v & -> & Hty & Hc) (title & Ht & Hs).
  unfold onmessage, deliver. simpl. rewrite Hty. simpl.
  eexists. unfold slice_to. rewrite Hc. simpl. rewrite Ht. simpl.
  rewrite Hs. simpl. reflexivity.
Qed.

Lemma deliver_trending_update Date_now s data courses :
  trending_update courses data ->
  deliver Date_now s (onmessage data)
  = Handled (with_trending courses s) [setTrending courses].
Proof.
  intros (v & -> & Hty & Hc). unfold onmessage, deliver. simpl.
  rewrite Hty. simpl. rewrite Hc. reflexivity.
Qed.

(** The same two messages, once the page has drawn what they leave. *)
Lemma rendered_new_recommendation Date_now s data course text :
  new_recommendation course data -> titled text course ->
  renderable true course -> render s = Ok tt ->
  exists acts,
    rendered Date_now s (onmessage data)
    = Handled (with_suggestion course (toast Date_now text) s) acts.
Proof.
  intros Hnew Ht Hc Hs.
  destruct (deliver_new_recommendation Date_now s data course text Hnew Ht)
    as [acts Hd].
  exists acts. apply (rendered_Handled _ _ _ _ _ Hd).
  apply render_with_suggestion; assumption.
Qed.

Lemma rendered_trending_update Date_now s data courses :
  trending_update courses data -> render (with_trending courses s) = Ok tt ->
  rendered Date_now s (onmessage data)
  = Handled (with_trending courses s) [setTrending courses].
Proof.
  intros Hnew Hs.
  exact (rendered_Handled _ _ _ _ _
           (deliver_trending_update Date_now s data courses Hnew) Hs).
Qed.

Lemma rendered_trending_update_throws Date_now s data courses e :
  trending_update courses data -> render (with_trending courses s) = Throw e ->
  rendered Date_now s (onmessage data) = RenderError e.
Proof.
  intros (v & -> & Hty & Hc) Hs. unfold onmessage, rendered, commit. simpl.
  rewrite Hty. simpl. rewrite Hc. simpl.
  change (render (with_trending courses s)) with
    (render {| topPicks := topPicks s; trending := courses;
               aiSuggestions := aiSuggestions s; isLoading := isLoading s;
               chatbotOpen := chatbotOpen s;
               notifications := notifications s |}) in Hs.
  rewrite Hs. reflexivity.
Qed.

Lemma deliver_unknown Date_now s data kind :
  of_kind kind data ->
  kind <> JString "new_recommendation" ->
  kind <> JString "trending_update" ->
  deliver Date_now s (onmessage data)
  = Handled s [console_log "Received unknown update type:" (ValueArg kind)].
Proof.
  intros (v & -> & Hty) H1 H2. unfold onmessage, deliver. simpl.
  rewrite Hty. simpl.
  rewrite (strict_equals_string_false _ _ H1), (strict_equals_string_false _ _ H2).
  reflexivity.
Qed.



(** C3.  A message that decodes and whose discriminator is neither
    ['new_recommendation'] nor ['trending_update']: the handler returns
    without throwing, its only call is the [console.log] of the kind, and the
    committed state (both lists, the notification queue, everything else) is
    the state before. *)
Theorem unknown_kind_changes_nothing :
  forall (Date_now : Z) (s : State) (data : Payload) (kind : Value),
    of_kind kind data ->
    kind <> JString "new_recommendation" ->
    kind <> JString "trending_update" ->
    deliver Date_now s (onmessage data)
    = Handled s [console_log "Received unknown update type:" (ValueArg kind)].
Proof. exact deliver_unknown. Qed.

Lemma unknown_kind_changes_nothing_witness :
  deliver 0 initial_state (onmessage (envelope "ping" "payload" JNull))
  = Handled initial_state
      [console_log "Received unknown update type:" (ValueArg (JString "ping"))].
Proof.
  apply (unknown_kind_changes_nothing 0 initial_state
           (envelope "ping" "payload" JNull) (JString "ping")).
  - exists (JObject [("type", JString "ping"); ("payload", JNull)]).
    split; reflexivity.
  - discriminate.
  - discriminate.
Defined.

(** C6, as the code has it.  A trending-update event that encloses an
    array of courses the card can draw, received by a page that is showing
    its state: the handler's only call is [setTrending(data.courses)], the
    trending list becomes exactly the enclosed array (the courses in the
    order received, nothing of the old list kept), the AI-suggestion list,
    the notification queue and the rest of the state stay as they were, and
    the page draws the result.  On a page that shows its lists this is the
    only case in which the list is replaced: with any other enclosed value
    the render throws and nothing is committed. *)
Theorem trending_update_replaces_trending :
  (forall (Date_now : Z) (s : State) (data : Payload) (courses : list Value),
     trending_update (JArray courses) data ->
     Forall (renderable false) courses ->
     render s = Ok tt ->
     rendered Date_now s (onmessage data)
     = Handled {| topPicks := topPicks s; trending := JArray courses;
                  aiSuggestions := aiSuggestions s; isLoading := isLoading s;
                  chatbotOpen := chatbotOpen s;
                  notifications := notifications s |}
               [setTrending (JArray courses)])
  /\ (forall (Date_now : Z) (s : State) (data : Payload) (enclosed : Value),
        trending_update enclosed data ->
        isLoading s = false ->
        (exists s' acts,
           rendered Date_now s (onmessage data) = Handled s' acts) ->
        exists courses,
          enclosed = JArray courses /\ Forall (renderable false) courses).
Proof.
  split.
  - intros t s data courses Hnew Hc Hs.
    apply (rendered_trending_update t s data (JArray courses) Hnew).
    apply render_with_trending; assumption.
  - intros t s data enclosed Hnew Hl (s' & acts & H).
    destruct (render (with_trending enclosed s)) as [[]|e] eqn:R.
    + apply render_ok in R. cbn [with_trending isLoading trending] in R.
      destruct R as [R|(_ & _ & items & E & Hi)]; [congruence|].
      exists items. split; assumption.
    + rewrite (rendered_trending_update_throws t s data enclosed e Hnew R) in H.
      discriminate.
Qed.

Lemma trending_update_replaces_trending_witness :
  rendered 2 (state opened)
    (onmessage (envelope "trending_update" "courses"
                  (JArray [titled_course "7" "B"; titled_course "3" "A"])))
  = Handled {| topPicks := topPicks (state opened);
               trending := JArray [titled_course "7" "B";
                                   titled_course "3" "A"];
               aiSuggestions := aiSuggestions (state opened);
               isLoading := isLoading (state opened);
               chatbotOpen := chatbotOpen (state opened);
               notifications := notifications (state opened) |}
            [setTrending (JArray [titled_course "7" "B"; titled_course "3" "A"])].
Proof.
  apply (proj1 trending_update_replaces_trending 2%Z (state opened)).
  - apply envelope_trending_update.
  - repeat constructor.
  - vm_compute. reflexivity.
Defined.

(** C6, as the specification has it, fails: the handler stores whatever the
    event encloses.  On the page two milliseconds after its mount (the mock
    lists on screen, the socket open), an update that encloses two courses
    with an identifier and a title each is stored, the card throws on
    [course.students.toLocaleString()], and the page is torn down with its
    trending list as it was; so does an update with no [courses] field. *)
Lemma trending_update_of_incomplete_courses_unmounts_page :
  rendered 2 (state opened)
    (onmessage (envelope "trending_update" "courses"
                  (JArray [title_only "7" "B"; title_only "3" "A"])))
  = RenderError TypeError
  /\ option_map (fun w => (mounted w, trending (state w)))
       (step opened
          (2%Z, Message (envelope "trending_update" "courses"
                           (JArray [title_only "7" "B"; title_only "3" "A"]))))
     = Some (false, trending (state opened))
  /\ rendered 2 (state opened)
       (onmessage (Encoded (JObject [("type", JString "trending_update")])))
     = RenderError TypeError.
Proof.
  split; [vm_compute; reflexivity|]. split; [vm_compute; reflexivity|].
  vm_compute. reflexivity.
Qed.

(** C8, as the code has it.  Two consecutive new-recommendation events, the
    first enclosing a course titled "Intro to Rust" and the second one titled
    "Intro to Go", both courses the card can draw, received by a page that
    is showing its state: right after the second the AI-suggestion list
    starts with the Go course followed by the Rust course, and the queue has
    gained exactly the two toasts, in arrival order; from an empty queue
    exactly two are pending. *)
Theorem rust_then_go :
  forall (s : State) (t1 t2 : Z) (m1 m2 : Payload) (rust go : Value),
    new_recommendation rust m1 -> titled "Intro to Rust" rust ->
    renderable true rust ->
    new_recommendation go m2 -> titled "Intro to Go" go ->
    renderable true go ->
    render s = Ok tt ->
    notifications s = [] ->
    exists s',
      deliver_all s [(t1, m1); (t2, m2)] = Some s'
      /\ aiSuggestions s' = go :: rust :: firstn 8 (aiSuggestions s)
      /\ notifications s' = [toast t1 "Intro to Rust"; toast t2 "Intro to Go"]
      /\ List.length (notifications s') = 2.
Proof.
  intros s t1 t2 m1 m2 rust go Hm1 Hr Hdr Hm2 Hg Hdg Hs Hq.
  destruct (rendered_new_recommendation t1 s m1 rust _ Hm1 Hr Hdr Hs)
    as [a1 H1].
  destruct (rendered_new_recommendation t2
              (with_suggestion rust (toast t1 "Intro to Rust") s) m2 go _
              Hm2 Hg Hdg (render_with_suggestion rust _ s Hs Hdr))
    as [a2 H2].
  eexists. cbn [deliver_all]. rewrite H1, H2. split; [reflexivity|].
  cbn [with_suggestion aiSuggestions notifications]. rewrite Hq.
  repeat split.
  change (firstn 10 (go :: firstn 10 (rust :: aiSuggestions s)))
    with (go :: firstn 9 (firstn 10 (rust :: aiSuggestions s))).
  rewrite firstn_firstn. reflexivity.
Qed.

Lemma rust_then_go_witness :
  exists s',
    deliver_all (state opened)
      [(1000%Z, envelope "new_recommendation" "course"
                  (titled_course "21" "Intro to Rust"));
       (1200%Z, envelope "new_recommendation" "course"
                  (titled_course "22" "Intro to Go"))] = Some s'
    /\ aiSuggestions s'
       = titled_course "22" "Intro to Go"
         :: titled_course "21" "Intro to Rust"
         :: firstn 8 (aiSuggestions (state opened))
    /\ notifications s'
       = [toast 1000 "Intro to Rust"; toast 1200 "Intro to Go"]
    /\ List.length (notifications s') = 2.
Proof.
  apply (rust_then_go (state opened) 1000 1200).
  - apply envelope_new_recommendation.
  - apply titled_course_titled.
  - apply titled_course_renderable.
  - apply envelope_new_recommendation.
  - apply titled_course_titled.
  - apply titled_course_renderable.
  - vm_compute. reflexivity.
  - vm_compute. reflexivity.
Defined.

(** C8, as the specification has it, fails: an event that carries a title
    need not carry a course the card can draw.  With the two events
    enclosing a title and nothing else, on the page two milliseconds after
    its mount, the first one already tears the page down
    ([course.students.toLocaleString()] throws on the new card): no state
    with the two courses in front is ever shown, no toast is pending, and
    the teardown closes the socket the second event would arrive on. *)
Lemma rust_then_go_with_titles_alone_unmounts_page :
  deliver_all (state opened)
    [(1000%Z, envelope "new_recommendation" "course"
                (JObject [("title", JString "Intro to Rust")]));
     (1200%Z, envelope "new_recommendation" "course"
                (JObject [("title", JString "Intro to Go")]))] = None
  /\ option_map (fun w => (mounted w, notifications (state w), socket w))
       (step opened
          (1000%Z, Message (envelope "new_recommendation" "course"
                              (JObject [("title", JString "Intro to Rust")]))))
     = Some (false, [], Some CLOSING).
Proof. split; vm_compute; reflexivity. Qed.

(* ================================================================== *)
(** * The component in its browser: invariants of [step] *)
(* ================================================================== *)

Lemma frame_effect (w : World) (a : Action) :
  off_socket a = true -> frame (effect w a) = frame w.
Proof. destruct a; simpl; intros H; try discriminate; reflexivity. Qed.

Lemma frame_effects (acts : list Action) :
  forall w, forallb off_socket acts = true ->
            frame (fold_left effect acts w) = frame w.
Proof.
  induction acts as [|a acts IH]; intros w H; simpl in *.
  - reflexivity.
  - apply andb_prop in H as [Ha Hr]. rewrite IH by exact Hr.
    apply frame_effect, Ha.
Qed.

Ltac unframe H :=
  unfold frame in H;
  let Hm := fresh "Hmounted" in let Hs := fresh "Hstate" in
  let Hk := fresh "Hsocket" in let Ho := fresh "Hopened" in
  let Hc := fresh "Hcloses" in let Ht := fresh "Hclock" in
  let Hti := fresh "Htimers" in let Hn := fresh "Hnext" in
  let He := fresh "Hcleanup" in let Hu := fresh "Huncaught" in
  injection H as Hm Hs Hk Ho Hc Ht Hti Hn He Hu.

(** The handlers stay off the socket. *)
Lemma onmessage_off_socket (data : Payload) (acts : list Action) :
  onmessage data = Ok acts -> forallb off_socket acts = true.
Proof.
  unfold onmessage. destruct data as [v|text]; simpl; [|discriminate].
  destruct (get v "type") as [ty|]; simpl; [|discriminate].
  destruct (strict_equals_string ty "new_recommendation").
  - intros H; inversion H; reflexivity.
  - destruct (strict_equals_string ty "trending_update").
    + destruct (get v "courses"); simpl; intros H; inversion H; reflexivity.
    + intros H; inversion H; reflexivity.
Qed.

(** Only the new-recommendation branch of [onmessage] queues a
    notification update. *)
Lemma reduce_keeps_notifications (acts : list Action) :
  existsb sets_notifications acts = false ->
  forall t s s', reduce t s acts = Ok s' -> notifications s' = notifications s.
Proof.
  induction acts as [|a acts IH]; simpl; intros H t s s' Hr.
  - inversion Hr; reflexivity.
  - apply orb_false_elim in H as [Ha Hrest].
    destruct (apply t s a) as [s1|] eqn:E; simpl in Hr; [|discriminate].
    rewrite (IH Hrest t s1 s' Hr).
    destruct a; simpl in E; try discriminate Ha;
      try (inversion E; reflexivity).
    destruct (f (aiSuggestions s)); simpl in E; inversion E; reflexivity.
Qed.

Lemma tidy_cleaned (w : World) : tidy w -> timers (expiry_cleaned w) = [].
Proof.
  unfold tidy, expiry_cleaned. destruct (expiry_cleanup w) as [h|]; intros H.
  - simpl. induction (timers w) as [|p ts IH]; simpl; [reflexivity|].
    assert (Hp : Some h = Some (fst p)) by (apply H; left; reflexivity).
    injection Hp as ->. rewrite Nat.eqb_refl. simpl.
    apply IH. intros q Hq. apply H. right. exact Hq.
  - destruct (timers w) as [|p ts]; [reflexivity|].
    specialize (H p (or_introl eq_refl)). discriminate.
Qed.

Lemma timers_ok_tidy (w : World) : timers_ok w -> tidy w.
Proof.
  unfold timers_ok, tidy. intros H p Hp.
  destruct (mounted w).
  - destruct (notifications (state w)).
    + destruct H as [H _]. rewrite H in Hp. destruct Hp.
    + destruct H as (h & due & Ht & Hc & _). rewrite Ht in Hp.
      destruct Hp as [<-|[]]. exact Hc.
  - destruct H as [H _]. rewrite H in Hp. destruct Hp.
Qed.

(** What the expiry effect leaves behind. *)
Lemma expiry_effect_spec (w : World) :
  tidy w ->
  let w' := expiry_effect w in
  timers w' = scheduled (next_handle w) (clock w) (notifications (state w))
  /\ expiry_cleanup w'
     = match notifications (state w) with
       | [] => None
       | _ :: _ => Some (next_handle w)
       end
  /\ next_handle w'
     = match notifications (state w) with
       | [] => next_handle w
       | _ :: _ => S (next_handle w)
       end
  /\ (mounted w', state w', socket w', sockets_opened w', close_calls w',
      clock w', console w', uncaught w')
     = (mounted w, state w, socket w, sockets_opened w, close_calls w,
        clock w, console w, uncaught w).
Proof.
  intros Ht. pose proof (tidy_cleaned w Ht) as Hc.
  unfold expiry_effect.
  assert (Hsame : (mounted (expiry_cleaned w), state (expiry_cleaned w),
                   socket (expiry_cleaned w), sockets_opened (expiry_cleaned w),
                   close_calls (expiry_cleaned w), clock (expiry_cleaned w),
                   console (expiry_cleaned w), uncaught (expiry_cleaned w),
                   next_handle (expiry_cleaned w))
                  = (mounted w, state w, socket w, sockets_opened w,
                     close_calls w, clock w, console w, uncaught w,
                     next_handle w)).
  { unfold expiry_cleaned. destruct (expiry_cleanup w); reflexivity. }
  injection Hsame as Hm Hs Hk Ho Hcc Hcl Hco Hu Hn.
  rewrite Hs.
  destruct (notifications (state w)) as [|n q]; simpl.
  - rewrite Hc, Hm, Hs, Hk, Ho, Hcc, Hcl, Hco, Hu, Hn. repeat split.
  - rewrite Hc, Hm, Hs, Hk, Ho, Hcc, Hcl, Hco, Hu, Hn. repeat split.
Qed.

Lemma unmount_spec (w : World) :
  tidy w -> torn_down w (unmount w) /\ clock (unmount w) = clock w.
Proof.
  intros Ht. unfold unmount.
  set (w1 := fold_left effect (disconnect (socket w)) w).
  assert (H1 : timers w1 = timers w /\ expiry_cleanup w1 = expiry_cleanup w
               /\ socket w1 = after_disconnect (socket w)
               /\ close_calls w1 = closes (socket w) + close_calls w
               /\ sockets_opened w1 = sockets_opened w /\ clock w1 = clock w).
  { unfold w1, disconnect. destruct (socket w) as [[]|] eqn:E; simpl;
      rewrite ?E; repeat split. }
  destruct H1 as (Hti & Hcl & Hso & Hcc & Hop & Hck).
  assert (Ht1 : tidy w1).
  { unfold tidy. rewrite Hti, Hcl. exact Ht. }
  pose proof (tidy_cleaned w1 Ht1) as Hc.
  assert (Hsame : (socket (expiry_cleaned w1), close_calls (expiry_cleaned w1),
                   sockets_opened (expiry_cleaned w1), clock (expiry_cleaned w1))
                  = (socket w1, close_calls w1, sockets_opened w1, clock w1)).
  { unfold expiry_cleaned. destruct (expiry_cleanup w1); reflexivity. }
  injection Hsame as Hs1 Hs2 Hs3 Hs4.
  unfold torn_down. simpl.
  rewrite Hc, Hs1, Hs2, Hs3, Hs4, Hso, Hcc, Hop, Hck. repeat split.
Qed.

(** One handler run on a mounted component: it either leaves the component
    mounted and the channel alone, with the queue and its timer untouched or
    the timer rescheduled; or an updater or a render that throws tears the
    component down. *)
Lemma dispatch_spec (w : World) (r : result (list Action)) :
  (forall acts, r = Ok acts -> forallb off_socket acts = true) ->
  mounted w = true -> tidy w ->
  let w' := dispatch w r in
  (kept w w'
   /\ ((queue_untouched w w'
        /\ forall acts, r = Ok acts -> existsb sets_notifications acts = false)
       \/ (rescheduled w w'
           /\ exists acts, r = Ok acts
                           /\ existsb sets_notifications acts = true)))
  \/ (torn_down w w' /\ clock w' = clock w
      /\ exists acts e, r = Ok acts
                        /\ commit (clock w) (state w) acts = Throw e).
Proof.
  intros Hoff Hm Ht. destruct r as [acts|e]; simpl.
  - specialize (Hoff acts eq_refl).
    pose proof (frame_effects acts w Hoff) as Hf.
    set (w1 := fold_left effect acts w) in *.
    pose proof Hf as Hf'. unframe Hf'.
    rewrite Hmounted, Hm, Hclock, Hstate.
    destruct (commit (clock w) (state w) acts) as [s'|e] eqn:Hr.
    + left. apply commit_Ok in Hr as [Hr _].
      destruct (existsb sets_notifications acts) eqn:Hn.
      * assert (Ht1 : tidy (set_state s' w1)).
        { unfold tidy. simpl. rewrite Htimers, Hcleanup. exact Ht. }
        destruct (expiry_effect_spec _ Ht1) as (E1 & E2 & E3 & E4).
        simpl in E1, E2, E3, E4. injection E4 as F1 F2 F3 F4 F5 F6 F7 F8.
        split.
        -- unfold kept. rewrite F1, F3, F4, F5, F6. repeat split; congruence.
        -- right. split; [|exists acts; split; [reflexivity|exact Hn]].
           unfold rescheduled. rewrite E1, E2, E3, F2, Hnext, Hclock. simpl.
           repeat split.
      * split.
        -- unfold kept. simpl. repeat split; congruence.
        -- left. split; [|intros ? [= <-]; exact Hn].
           unfold queue_untouched. simpl.
           rewrite (reduce_keeps_notifications acts Hn _ _ _ Hr).
           repeat split; congruence.
    + right.
      assert (Ht1 : tidy (report e w1)).
      { unfold tidy. simpl. rewrite Htimers, Hcleanup. exact Ht. }
      destruct (unmount_spec _ Ht1) as ((U1 & U2 & U3 & U4 & U5 & U6) & U7).
      change (socket (report e w1)) with (socket w1) in U4, U5.
      change (close_calls (report e w1)) with (close_calls w1) in U5.
      change (sockets_opened (report e w1)) with (sockets_opened w1) in U6.
      change (clock (report e w1)) with (clock w1) in U7.
      split; [|split; [congruence | exists acts, e; split; [reflexivity|exact Hr]]].
      unfold torn_down. rewrite U1, U2, U3, U4, U5, U6.
      rewrite Hsocket, Hcloses, Hopened. repeat split.
  - left. split.
    + unfold kept. simpl. repeat split.
    + left. split; [|intros ? [=]]. unfold queue_untouched. simpl. repeat split.
Qed.

(** After unmount, a handler run only reaches the console and the browser's
    report of uncaught exceptions. *)
Lemma dispatch_unmounted (w : World) (r : result (list Action)) :
  (forall acts, r = Ok acts -> forallb off_socket acts = true) ->
  mounted w = false ->
  let w' := dispatch w r in
  kept w w' /\ queue_untouched w w' /\ state w' = state w.
Proof.
  intros Hoff Hm. destruct r as [acts|e]; simpl.
  - specialize (Hoff acts eq_refl).
    pose proof (frame_effects acts w Hoff) as Hf.
    set (w1 := fold_left effect acts w) in *. pose proof Hf as Hf'. unframe Hf'.
    rewrite Hmounted, Hm. unfold kept, queue_untouched.
    repeat split; congruence.
  - unfold kept, queue_untouched. simpl. repeat split.
Qed.

Lemma handled_spec (w1 : World) (r : result (list Action)) :
  (forall acts, r = Ok acts -> forallb off_socket acts = true) ->
  tidy w1 ->
  let w' := dispatch w1 r in
  clock w' = clock w1 /\ sockets_opened w' = sockets_opened w1
  /\ ((mounted w' = mounted w1 /\ close_calls w' = close_calls w1
       /\ socket w' = socket w1
       /\ ((queue_untouched w1 w'
            /\ (mounted w1 = true ->
                forall acts, r = Ok acts ->
                             existsb sets_notifications acts = false))
           \/ (mounted w1 = true /\ rescheduled w1 w')))
      \/ (mounted w1 = true /\ torn_down w1 w'
          /\ exists acts e, r = Ok acts
               /\ commit (clock w1) (state w1) acts = Throw e)).
Proof.
  intros Hoff Ht. destruct (mounted w1) eqn:Hm.
  - destruct (dispatch_spec w1 r Hoff Hm Ht)
      as [[(K1 & K2 & K3 & K4 & K5) [[Q N]|[R _]]]|(T & TC & E)]; simpl.
    + repeat split; try assumption; try congruence.
      left. repeat split; try congruence. left. split; [exact Q|]. auto.
    + repeat split; try assumption.
      left. repeat split; try congruence. right. split; [reflexivity|exact R].
    + pose proof T as (T1 & T2 & T3 & T4 & T5 & T6).
      split; [exact TC|]. split; [exact T6|].
      right. split; [reflexivity|]. split; [exact T|exact E].
  - destruct (dispatch_unmounted w1 r Hoff Hm)
      as ((K1 & K2 & K3 & K4 & K5) & Q & S); simpl.
    repeat split; try assumption.
    left. repeat split; try congruence. left. split; [exact Q|]. discriminate.
Qed.

Lemma on_time_spec (w : World) (t : Z) :
  on_time w t = true ->
  (clock w <= t)%Z /\ forall p, In p (timers w) -> (t <= snd p)%Z.
Proof.
  unfold on_time. intros H. apply andb_prop in H as [H1 H2].
  split; [apply Z.leb_le, H1|].
  rewrite forallb_forall in H2. intros p Hp. apply Z.leb_le, H2, Hp.
Qed.

Lemma reduce_console_only (acts : list Action) :
  forallb is_console acts = true -> forall t s, reduce t s acts = Ok s.
Proof.
  induction acts as [|a acts IH]; simpl; intros H t s; [reflexivity|].
  apply andb_prop in H as [Ha Hr].
  destruct a; simpl in Ha; try discriminate; simpl; apply IH, Hr.
Qed.

Lemma console_off_socket (acts : list Action) :
  forallb is_console acts = true -> forallb off_socket acts = true.
Proof.
  induction acts as [|a acts IH]; simpl; [reflexivity|].
  intros H. apply andb_prop in H as [Ha Hr]. rewrite (IH Hr).
  destruct a; simpl in Ha; try discriminate; reflexivity.
Qed.

Lemma console_no_setter (acts : list Action) :
  forallb is_console acts = true -> existsb is_setter acts = false.
Proof.
  induction acts as [|a acts IH]; simpl; [reflexivity|].
  intros H. apply andb_prop in H as [Ha Hr]. rewrite (IH Hr).
  destruct a; simpl in Ha; try discriminate; reflexivity.
Qed.

Lemma console_sets_no_notifications (acts : list Action) :
  forallb is_console acts = true -> existsb sets_notifications acts = false.
Proof.
  induction acts as [|a acts IH]; simpl; [reflexivity|].
  intros H. apply andb_prop in H as [Ha Hr]. rewrite (IH Hr).
  destruct a; simpl in Ha; try discriminate; reflexivity.
Qed.

(** A handler that only logs changes nothing but the console. *)
Lemma dispatch_console_frame (w : World) (acts : list Action) :
  forallb is_console acts = true ->
  frame (dispatch w (Ok acts)) = frame w.
Proof.
  intros Hc. unfold dispatch.
  pose proof (frame_effects acts w (console_off_socket acts Hc)) as Hf.
  set (w1 := fold_left effect acts w) in *.
  rewrite (commit_no_setter acts (console_no_setter acts Hc)),
    (console_sets_no_notifications acts Hc).
  destruct (mounted w1); [|exact Hf].
  rewrite <- Hf. unfold frame. simpl. reflexivity.
Qed.

(** One step, described from the world before it. *)
Lemma step_spec (w : World) (t : Z) (ev : Event) (w' : World) :
  timers_ok w -> step w (t, ev) = Some w' ->
  enabled w t ev = true
  /\ (clock w <= t)%Z /\ (forall p, In p (timers w) -> (t <= snd p)%Z)
  /\ clock w' = t /\ sockets_opened w' = sockets_opened w
  /\ ((mounted w' = mounted w /\ close_calls w' = close_calls w
       /\ socket w' = socket_after ev (socket w)
       /\ (queue_untouched w w'
           \/ (mounted w = true /\ rescheduled (set_clock t w) w')))
      \/ (mounted w = true /\ torn_down w w')).
Proof.
  intros Hok Hstep. unfold step in Hstep.
  destruct (enabled w t ev) eqn:En; [|discriminate].
  injection Hstep as <-. split; [reflexivity|].
  unfold enabled in En. apply andb_prop in En as [Hon Hev].
  destruct (on_time_spec w t Hon) as [Hclk Hdue].
  pose proof (timers_ok_tidy w Hok) as Htidy.
  assert (Ht0 : tidy (set_clock t w)) by exact Htidy.
  split; [exact Hclk|]. split; [exact Hdue|].
  assert (Hconsole : forall (w1 : World) (acts : list Action),
             forallb is_console acts = true ->
             let w2 := dispatch w1 (Ok acts) in
             clock w2 = clock w1 /\ sockets_opened w2 = sockets_opened w1
             /\ mounted w2 = mounted w1 /\ close_calls w2 = close_calls w1
             /\ socket w2 = socket w1 /\ queue_untouched w1 w2).
  { intros w1 acts Hc. pose proof (dispatch_console_frame w1 acts Hc) as Hf.
    simpl. unframe Hf. unfold queue_untouched.
    repeat split; congruence. }
  destruct ev as [|data| | |n|timer|]; simpl handler in *.
  - (* SocketOpens *)
    destruct (Hconsole (set_socket (Some OPEN) (set_clock t w))
                [console_log "WebSocket connection established" NoArg])
      as (C & O & M & CC & S & Q); [reflexivity|].
    split; [exact C|]. split; [exact O|]. left. repeat split; try assumption.
    left. exact Q.
  - (* Message *)
    destruct (handled_spec (set_clock t w) (onmessage data)
                (onmessage_off_socket data) Ht0)
      as (C & O & [(M & CC & S & [[Q _]|[Hm R]])|(Hm & T & _)]).
    + split; [exact C|]. split; [exact O|]. left. repeat split; try assumption.
      left. exact Q.
    + split; [exact C|]. split; [exact O|]. left. repeat split; try assumption.
      right. split; assumption.
    + split; [exact C|]. split; [exact O|]. right. split; [exact Hm|exact T].
  - (* SocketError *)
    destruct (Hconsole (set_clock t w) [console_error "WebSocket error:" EventArg])
      as (C & O & M & CC & S & Q); [reflexivity|].
    split; [exact C|]. split; [exact O|]. left. repeat split; try assumption.
    left. exact Q.
  - (* SocketCloses *)
    destruct (Hconsole (set_socket (Some CLOSED) (set_clock t w))
                [console_log "WebSocket connection closed" NoArg])
      as (C & O & M & CC & S & Q); [reflexivity|].
    split; [exact C|]. split; [exact O|]. left. repeat split; try assumption.
    left. exact Q.
  - (* Dismiss *)
    apply andb_prop in Hev as [Hm _].
    destruct (handled_spec (set_clock t w) (onClose n)) as (C & O & X);
      [intros ? [= <-]; reflexivity | exact Ht0 |].
    split; [exact C|]. split; [exact O|].
    destruct X as [(M & CC & S & [[Q N]|[_ R]])|(_ & T & _)].
    + specialize (N Hm _ eq_refl). discriminate.
    + left. repeat split; try assumption. right. split; assumption.
    + right. split; [exact Hm|exact T].
  - (* TimerFires *)
    assert (Hm : mounted w = true).
    { unfold timers_ok in Hok. destruct (mounted w); [reflexivity|].
      destruct Hok as [E _]. rewrite E in Hev. discriminate. }
    assert (Ht1 : tidy (clearTimeout timer (set_clock t w))).
    { unfold tidy. simpl. intros p Hp. apply filter_In in Hp as [Hp _].
      apply Htidy, Hp. }
    destruct (handled_spec (clearTimeout timer (set_clock t w)) expire)
      as (C & O & X); [intros ? [= <-]; reflexivity | exact Ht1 |].
    split; [exact C|]. split; [exact O|].
    destruct X as [(M & CC & S & [[Q N]|[_ R]])|(_ & T & _)].
    + specialize (N Hm _ eq_refl). discriminate.
    + left. repeat split; try assumption. right. split; assumption.
    + right. split; [exact Hm|exact T].
  - (* Unmount *)
    destruct (unmount_spec (set_clock t w) Ht0) as (T & TC).
    pose proof T as (T1 & T2 & T3 & T4 & T5 & T6).
    split; [exact TC|]. split; [exact T6|]. right. split; [exact Hev|exact T].
Qed.

Lemma mount_ok (NEXT_PUBLIC_WS_URL : option string) (t0 : Z) :
  timers_ok (mount NEXT_PUBLIC_WS_URL t0)
  /\ channel_ok (mount NEXT_PUBLIC_WS_URL t0).
Proof.
  unfold timers_ok, channel_ok. simpl. repeat split; try lia. discriminate.
Qed.

Lemma step_timers_ok (w : World) (te : Z * Event) (w' : World) :
  timers_ok w -> step w te = Some w' -> timers_ok w'.
Proof.
  intros Hok Hstep. destruct te as [t ev].
  destruct (step_spec w t ev w' Hok Hstep)
    as (_ & Hclk & Hdue & C & O
        & [(M & CC & S & [(Q1 & Q2 & Q3 & Q4)|(Hm & R1 & R2 & R3)])
          |(Hm & T1 & T2 & T3 & T4 & T5 & T6)]).
  - unfold timers_ok in *. rewrite M, Q1, Q2, Q3, Q4, C.
    destruct (mounted w); [|exact Hok].
    destruct (notifications (state w)); [exact Hok|].
    destruct Hok as (h & due & E1 & E2 & E3 & E4). exists h, due.
    repeat split; try assumption.
    apply (Hdue (h, due)). rewrite E1. left. reflexivity.
  - unfold timers_ok. rewrite M, Hm, R1, R2, R3, C. simpl.
    destruct (notifications (state w')); simpl.
    + split; reflexivity.
    + eexists _, _. repeat split; lia.
  - unfold timers_ok. rewrite T1. split; assumption.
Qed.

Lemma step_ok (w : World) (te : Z * Event) (w' : World) :
  timers_ok w -> channel_ok w -> step w te = Some w' ->
  timers_ok w' /\ channel_ok w'.
Proof.
  intros Hok (Hop & Hso & Hcl & Hle) Hstep.
  split; [exact (step_timers_ok w te w' Hok Hstep)|]. destruct te as [t ev].
  destruct (step_spec w t ev w' Hok Hstep)
    as (_ & Hclk & Hdue & C & O
        & [(M & CC & S & _)|(Hm & T1 & T2 & T3 & T4 & T5 & T6)]).
  - unfold channel_ok. rewrite O, S, M, CC. repeat split; try assumption.
    destruct ev; simpl; try assumption; discriminate.
  - unfold channel_ok. rewrite O, T1, T4, T5, (Hcl Hm).
    repeat split; try assumption.
    + destruct (socket w) as [[]|]; simpl; congruence.
    + discriminate.
    + destruct (socket w) as [[]|]; simpl; lia.
Qed.

Lemma run_ok (trace : list (Z * Event)) :
  forall w w', timers_ok w -> channel_ok w -> run w trace = Some w' ->
               timers_ok w' /\ channel_ok w'.
Proof.
  induction trace as [|te trace IH]; cbn [run]; intros w w' Ht Hc Hrun.
  - injection Hrun as <-. split; assumption.
  - destruct (step w te) as [w1|] eqn:Hs; [|discriminate].
    destruct (step_ok w te w1 Ht Hc Hs) as [Ht1 Hc1].
    exact (IH w1 w' Ht1 Hc1 Hrun).
Qed.

Lemma reachable_ok (w : World) :
  reachable w -> timers_ok w /\ channel_ok w.
Proof.
  intros (env & t0 & trace & Hrun).
  destruct (mount_ok env t0) as [Ht Hc].
  exact (run_ok trace _ _ Ht Hc Hrun).
Qed.

(** ** A mounted page is a drawn page *)

Lemma state_expiry_effect (w : World) : state (expiry_effect w) = state w.
Proof.
  unfold expiry_effect, expiry_cleaned.
  destruct (expiry_cleanup w); simpl;
    match goal with |- context [if ?b then _ else _] => destruct b end;
    reflexivity.
Qed.

Lemma effects_state_clock (acts : list Action) :
  forall w, state (fold_left effect acts w) = state w
            /\ clock (fold_left effect acts w) = clock w.
Proof.
  induction acts as [|a acts IH]; intros w; simpl; [split; reflexivity|].
  destruct (IH (effect w a)) as [-> ->]. destruct a; split; reflexivity.
Qed.

Lemma state_unmount (w : World) : state (unmount w) = state w.
Proof.
  unfold unmount, disconnect, expiry_cleaned.
  destruct (socket w) as [[]|]; simpl;
    match goal with
    | |- context [match ?c with Some _ => _ | None => _ end] => destruct c
    end; reflexivity.
Qed.

Lemma effects_mounted (acts : list Action) :
  forall w, mounted (fold_left effect acts w) = mounted w.
Proof.
  induction acts as [|a acts IH]; intros w; simpl; [reflexivity|].
  rewrite IH. destruct a; reflexivity.
Qed.

Lemma mounted_expiry_effect (w : World) :
  mounted (expiry_effect w) = mounted w.
Proof.
  unfold expiry_effect, expiry_cleaned.
  destruct (expiry_cleanup w); simpl;
    match goal with |- context [if ?b then _ else _] => destruct b end;
    reflexivity.
Qed.

Lemma mounted_unmount (w : World) : mounted (unmount w) = false.
Proof. reflexivity. Qed.

(** The state a handler run leaves was drawn, or the page is gone. *)
Lemma dispatch_drawn (w : World) (r : result (list Action)) :
  drawn w -> drawn (dispatch w r).
Proof.
  unfold drawn. intros Hd. destruct r as [acts|e]; simpl; [|exact Hd].
  destruct (effects_state_clock acts w) as [Hs Hc].
  pose proof (effects_mounted acts w) as Hmm.
  set (w1 := fold_left effect acts w) in *.
  destruct (mounted w1) eqn:Hm1; [|intros H; rewrite Hm1 in H; discriminate].
  rewrite Hs, Hc. destruct (commit (clock w) (state w) acts) as [s'|e] eqn:Hr.
  - intros _.
    assert (Hs' : render s' = Ok tt).
    { destruct (existsb is_setter acts) eqn:Hset.
      - apply commit_Ok in Hr as [_ Hr]. exact (Hr Hset).
      - rewrite (commit_no_setter acts Hset) in Hr. injection Hr as <-.
        apply Hd. congruence. }
    destruct (existsb sets_notifications acts);
      rewrite ?state_expiry_effect; exact Hs'.
  - intros H. exfalso. revert H.
    change (mounted (unmount (report e w1)) = true -> False).
    rewrite mounted_unmount. discriminate.
Qed.

Lemma step_drawn (w : World) (te : Z * Event) (w' : World) :
  drawn w -> step w te = Some w' -> drawn w'.
Proof.
  intros Hd Hstep. destruct te as [t ev]. unfold step in Hstep.
  destruct (enabled w t ev); [|discriminate].
  injection Hstep as Hstep. subst w'.
  destruct ev as [|data| | |n|timer|].
  - exact (dispatch_drawn (set_socket (Some OPEN) (set_clock t w)) onopen Hd).
  - exact (dispatch_drawn (set_clock t w) (onmessage data) Hd).
  - exact (dispatch_drawn (set_clock t w) onerror Hd).
  - exact (dispatch_drawn (set_socket (Some CLOSED) (set_clock t w)) onclose Hd).
  - exact (dispatch_drawn (set_clock t w) (onClose n) Hd).
  - exact (dispatch_drawn (clearTimeout timer (set_clock t w)) expire Hd).
  - unfold drawn. rewrite mounted_unmount. discriminate.
Qed.

Lemma run_drawn (trace : list (Z * Event)) :
  forall w w', drawn w -> run w trace = Some w' -> drawn w'.
Proof.
  induction trace as [|te trace IH]; cbn [run]; intros w w' Hd Hrun.
  - injection Hrun as <-. exact Hd.
  - destruct (step w te) as [w1|] eqn:Hs; [|discriminate].
    exact (IH w1 w' (step_drawn w te w1 Hd Hs) Hrun).
Qed.

Lemma mount_drawn (NEXT_PUBLIC_WS_URL : option string) (t0 : Z) :
  drawn (mount NEXT_PUBLIC_WS_URL t0).
Proof. intros _. reflexivity. Qed.

Lemma reachable_drawn (w : World) : reachable w -> drawn w.
Proof.
  intros (env & t0 & trace & Hrun).
  exact (run_drawn trace _ _ (mount_drawn env t0) Hrun).
Qed.

(** Closing a toast or dropping the head of the queue leaves the carousels
    as they are, so the page that was drawn is drawn again. *)
Lemma commit_queue (t : Z) (s : State)
  (f : Z -> list Notification -> result (list Notification))
  (l : list Notification) :
  f t (notifications s) = Ok l -> render s = Ok tt ->
  commit t s [setNotifications f] = Ok (with_notifications l s).
Proof.
  intros Hf Hs. apply commit_rendered; [|exact Hs].
  cbn [reduce apply]. rewrite Hf. reflexivity.
Qed.

(** Closing a toast on a drawn page. *)
Lemma rendered_onClose (t : Z) (s : State) (n : Notification) :
  render s = Ok tt ->
  outcome_state (rendered t s (onClose n))
  = Some (with_notifications
            (filter (fun m => negb (Z.eqb (id m) (id n))) (notifications s))
            s).
Proof.
  intros Hs. unfold rendered, onClose.
  rewrite (commit_queue t s _ _ eq_refl Hs). reflexivity.
Qed.

Lemma dispatch_queue (w : World)
  (f : Z -> list Notification -> result (list Notification))
  (l : list Notification) :
  mounted w = true -> render (state w) = Ok tt ->
  f (clock w) (notifications (state w)) = Ok l ->
  dispatch w (Ok [setNotifications f])
  = expiry_effect (set_state (with_notifications l (state w)) w).
Proof.
  intros Hm Hd Hf. unfold dispatch. cbn [fold_left effect].
  rewrite Hm, (commit_queue _ _ f l Hf Hd). reflexivity.
Qed.

(** A timer that fires on a mounted component takes the head off the queue. *)
Lemma timer_fires_head (w : World) (t : Z) (timer : nat) (w' : World) :
  mounted w = true -> drawn w -> step w (t, TimerFires timer) = Some w' ->
  notifications (state w') = tl (notifications (state w))
  /\ mounted w' = true.
Proof.
  intros Hm Hd Hstep. unfold step in Hstep.
  destruct (enabled w t (TimerFires timer)); [|discriminate].
  assert (E : w' = dispatch (clearTimeout timer (set_clock t w)) expire)
    by (injection Hstep as Hstep; symmetry; exact Hstep).
  rewrite E. unfold expire.
  rewrite (dispatch_queue (clearTimeout timer (set_clock t w)) _
             (slice_from 1 (notifications (state w))) Hm (Hd Hm) eq_refl).
  rewrite state_expiry_effect, mounted_expiry_effect. simpl.
  split; [|exact Hm]. destruct (notifications (state w)); reflexivity.
Qed.

Lemma timers_ok_pending (w : World) (timer : nat) (due : Z) :
  timers_ok w -> timers w = [(timer, due)] ->
  mounted w = true /\ notifications (state w) <> []
  /\ (clock w <= due)%Z /\ timer < next_handle w.
Proof.
  unfold timers_ok. intros H E. destruct (mounted w).
  - destruct (notifications (state w)).
    + destruct H as [H _]. congruence.
    + destruct H as (h & d & E1 & _ & E3 & E4). rewrite E in E1.
      injection E1 as <- <-. repeat split; try assumption. discriminate.
  - destruct H as [H _]. congruence.
Qed.

(** With one timer pending and nothing else happening, the timer fires when
    it is due, takes the head off, and the next one is due 5 s later. *)
Lemma fire_next_spec (w : World) (timer : nat) (due : Z) :
  timers_ok w -> drawn w -> timers w = [(timer, due)] ->
  exists w',
    fire_next w = Some w' /\ timers_ok w' /\ drawn w'
    /\ notifications (state w') = tl (notifications (state w))
    /\ clock w' = due
    /\ timers w' = scheduled (next_handle w) due (notifications (state w')).
Proof.
  intros Hok Hd E.
  destruct (timers_ok_pending w timer due Hok E) as (Hm & Hne & Hclk & _).
  unfold fire_next. rewrite E. simpl next_due.
  assert (En : enabled w due (TimerFires timer) = true).
  { unfold enabled, on_time. rewrite E. simpl.
    rewrite Nat.eqb_refl, Z.eqb_refl, Z.leb_refl. simpl.
    rewrite !andb_true_r. apply Z.leb_le. exact Hclk. }
  destruct (step w (due, TimerFires timer)) as [w'|] eqn:Hs.
  2:{ unfold step in Hs. rewrite En in Hs. discriminate. }
  exists w'. split; [reflexivity|].
  destruct (timer_fires_head w due timer w' Hm Hd Hs) as [Hq Hm'].
  destruct (step_spec w due _ w' Hok Hs)
    as (_ & _ & _ & C & _
        & [(_ & _ & _ & [(Q1 & _)|(_ & R1 & _)])|(_ & T1 & _)]).
  - exfalso. rewrite Hq in Q1. destruct (notifications (state w)); [congruence|].
    simpl in Q1. apply (f_equal (@List.length _)) in Q1. simpl in Q1. lia.
  - split; [exact (step_timers_ok w _ w' Hok Hs)|].
    split; [exact (step_drawn w _ w' Hd Hs)|].
    split; [exact Hq|split; [exact C|exact R1]].
  - congruence.
Qed.

Lemma drain (k : nat) :
  forall (w : World) (timer : nat) (due : Z),
    timers_ok w -> drawn w -> timers w = [(timer, due)] ->
    k < List.length (notifications (state w)) ->
    exists w',
      fire_times (S k) w = Some w'
      /\ notifications (state w') = skipn (S k) (notifications (state w))
      /\ clock w' = (due + 5000 * Z.of_nat k)%Z.
Proof.
  induction k as [|k IH]; intros w timer due Hok Hd E Hk;
    destruct (fire_next_spec w timer due Hok Hd E)
      as (w1 & F & Hok1 & Hd1 & Hq & Hc & Ht);
    cbn [fire_times]; rewrite F.
  - exists w1. split; [reflexivity|]. split.
    + rewrite Hq. destruct (notifications (state w)); reflexivity.
    + rewrite Hc. lia.
  - assert (Hlen : k < List.length (notifications (state w1))).
    { rewrite Hq. destruct (notifications (state w)); simpl in *; lia. }
    destruct (notifications (state w1)) as [|n q] eqn:Eq; [simpl in Hlen; lia|].
    simpl in Ht.
    destruct (IH w1 (next_handle w) (due + 5000)%Z Hok1 Hd1 Ht)
      as (w' & F' & Hq' & Hc').
    { rewrite Eq. exact Hlen. }
    exists w'. split; [exact F'|]. split.
    + rewrite Hq', Eq, Hq.
      destruct (notifications (state w)); reflexivity.
    + rewrite Hc'. lia.
Qed.

(** C10.  Between two events at most one expiry timer is pending, and one is
    pending exactly while the component is mounted with a non-empty queue.
    A step that leaves the component mounted either leaves the queue and the
    pending timer as they were, or (the queue changed) cancels what was
    pending and, if the queue is not empty, schedules one fresh timer due
    5000 ms after the step.  A timer that fires removes the head of the
    queue.  So with nothing else happening the timers fire one after the
    other, 5000 ms apart, each removing the then oldest notification. *)
Theorem one_expiry_timer_drains_fifo :
  (forall w, reachable w ->
     List.length (timers w) <= 1
     /\ (timers w <> [] <->
         mounted w = true /\ notifications (state w) <> []))
  /\ (forall w t ev w',
        reachable w -> step w (t, ev) = Some w' -> mounted w' = true ->
        (notifications (state w') = notifications (state w)
         /\ timers w' = timers w)
        \/ (timers w' = scheduled (next_handle w) t (notifications (state w'))
            /\ forall p, In p (timers w) -> ~ In p (timers w')))
  /\ (forall w t timer w',
        reachable w -> step w (t, TimerFires timer) = Some w' ->
        notifications (state w') = tl (notifications (state w)))
  /\ (forall w timer due k,
        reachable w -> timers w = [(timer, due)] ->
        k < List.length (notifications (state w)) ->
        exists w',
          fire_times (S k) w = Some w'
          /\ notifications (state w') = skipn (S k) (notifications (state w))
          /\ clock w' = (due + 5000 * Z.of_nat k)%Z).
Proof.
  split; [|split; [|split]].
  - intros w Hr. destruct (reachable_ok w Hr) as [Hok _].
    unfold timers_ok in Hok. destruct (mounted w).
    + destruct (notifications (state w)).
      * destruct Hok as [-> _]. simpl. split; [lia|].
        split; [congruence|]. intros [_ H]. congruence.
      * destruct Hok as (h & due & -> & _). simpl. split; [lia|].
        split; intros _; [split; [reflexivity|discriminate]|discriminate].
    + destruct Hok as [-> _]. simpl. split; [lia|].
      split; [congruence|]. intros [H _]. discriminate.
  - intros w t ev w' Hr Hstep Hm'. destruct (reachable_ok w Hr) as [Hok _].
    destruct (step_spec w t ev w' Hok Hstep)
      as (_ & _ & _ & _ & _
          & [(_ & _ & _ & [(Q1 & Q2 & _)|(Hm & R1 & _)])|(_ & T1 & _)]).
    + left. split; assumption.
    + right. split; [exact R1|]. intros p Hp Hp'.
      change (timers w' = scheduled (next_handle w) t (notifications (state w')))
        in R1.
      rewrite R1 in Hp'. unfold timers_ok in Hok. rewrite Hm in Hok.
      destruct (notifications (state w)).
      * destruct Hok as [E _]. rewrite E in Hp. destruct Hp.
      * destruct Hok as (h & due & E & _ & _ & Hlt). rewrite E in Hp.
        destruct Hp as [<-|[]].
        destruct (notifications (state w')); simpl in Hp'; [destruct Hp'|].
        destruct Hp' as [Heq|[]]. injection Heq as Heq _. lia.
    + congruence.
  - intros w t timer w' Hr Hstep. destruct (reachable_ok w Hr) as [Hok _].
    destruct (mounted w) eqn:Hm.
    + exact (proj1 (timer_fires_head w t timer w' Hm (reachable_drawn w Hr)
                      Hstep)).
    + exfalso. unfold timers_ok in Hok. rewrite Hm in Hok. destruct Hok as [E _].
      unfold step, enabled in Hstep. rewrite E in Hstep. simpl in Hstep.
      rewrite andb_false_r in Hstep. discriminate.
  - intros w timer due k Hr E Hk. destruct (reachable_ok w Hr) as [Hok _].
    exact (drain k w timer due Hok (reachable_drawn w Hr) E Hk).
Qed.

(** ** The cap on the suggestion list, over whole runs *)

(** A handler run leaves the state alone or commits what [reduce] gives
    (which the page then drew). *)
Lemma dispatch_state (w : World) (r : result (list Action)) :
  state (dispatch w r) = state w
  \/ exists acts, r = Ok acts
       /\ reduce (clock w) (state w) acts = Ok (state (dispatch w r)).
Proof.
  destruct r as [acts|e]; simpl; [|left; reflexivity].
  destruct (effects_state_clock acts w) as [Hs Hc].
  set (w1 := fold_left effect acts w) in *. rewrite Hs, Hc.
  destruct (mounted w1); [|left; exact Hs].
  destruct (commit (clock w) (state w) acts) as [s'|e] eqn:Hr.
  - right. exists acts. split; [reflexivity|].
    apply commit_Ok in Hr as [Hr _].
    rewrite Hr. destruct (existsb sets_notifications acts);
      rewrite ?state_expiry_effect; reflexivity.
  - left. rewrite state_unmount. exact Hs.
Qed.

Lemma step_state (w : World) (t : Z) (ev : Event) (w' : World) :
  step w (t, ev) = Some w' ->
  state w' = state w
  \/ exists acts, handler ev = Ok acts
       /\ reduce t (state w) acts = Ok (state w').
Proof.
  unfold step. destruct (enabled w t ev); [|discriminate].
  intros H. injection H as H. subst w'.
  destruct ev as [|data| | |n|timer|].
  - exact (dispatch_state (set_socket (Some OPEN) (set_clock t w)) onopen).
  - exact (dispatch_state (set_clock t w) (onmessage data)).
  - exact (dispatch_state (set_clock t w) onerror).
  - exact (dispatch_state (set_socket (Some CLOSED) (set_clock t w)) onclose).
  - exact (dispatch_state (set_clock t w) (onClose n)).
  - exact (dispatch_state (clearTimeout timer (set_clock t w)) expire).
  - left. exact (state_unmount (set_clock t w)).
Qed.








(** C2.  Evaluated on the code: two recommendations, of courses with every
    field the card reads, arrive 4 s apart and are drawn, so the page
    stays mounted.  The second arrival cancels the timer of the first (it can no longer fire at
    5000 ms) and schedules one due at 9000 ms, so 6000 ms after mount the
    toast inserted at 0 ms is still in the queue; it goes at 9000 ms, and the
    second toast, inserted at 4000 ms, at 14000 ms.  So the bound of 5 s per
    toast does not hold of the code, whose comment on the effect says "Remove
    notification after 5 seconds". *)
Theorem first_toast_outlives_five_seconds :
  (exists w,
     run (mount None 0) (two_in_a_row ++ [(6000%Z, SocketError)]) = Some w
     /\ mounted w = true
     /\ clock w = 6000%Z
     /\ notifications (state w)
        = [toast 0 "Intro to Rust"; toast 4000 "Intro to Go"]
     /\ timers w = [(2, 9000%Z)])
  /\ run (mount None 0) (two_in_a_row ++ [(5000%Z, TimerFires 1)]) = None
  /\ (exists w,
        run (mount None 0) (two_in_a_row ++ [(9000%Z, TimerFires 2)]) = Some w
        /\ mounted w = true
        /\ notifications (state w) = [toast 4000 "Intro to Go"]
        /\ timers w = [(3, 14000%Z)])
  /\ (exists w,
        run (mount None 0)
            (two_in_a_row ++ [(9000%Z, TimerFires 2); (14000%Z, TimerFires 3)])
        = Some w
        /\ notifications (state w) = [] /\ timers w = [])
  /\ ~ expires_within 5000.
Proof.
  split; [|split; [|split; [|split]]].
  - eexists. split; [vm_compute; reflexivity|]. repeat split.
  - vm_compute. reflexivity.
  - eexists. split; [vm_compute; reflexivity|]. repeat split.
  - eexists. split; [vm_compute; reflexivity|]. repeat split.
  - intros H.
    assert (Hr : reachable six_seconds_in).
    { exists None, 0%Z, (two_in_a_row ++ [(6000%Z, SocketError)]).
      vm_compute. reflexivity. }
    assert (Hm : mounted six_seconds_in = true) by (vm_compute; reflexivity).
    assert (Hin : In (toast 0 "Intro to Rust")
                     (notifications (state six_seconds_in))).
    { vm_compute. left. reflexivity. }
    specialize (H six_seconds_in Hr Hm _ Hin).
    vm_compute in H. apply H. reflexivity.
Qed.

(** C4.  Every step that unmounts a mounted component (the unmount itself,
    or a render that throws) while the socket is OPEN calls [close()] once
    and leaves the socket CLOSING; with the socket not OPEN it makes no
    [close()] call.  Over any run [close()] is called at most once, never
    while mounted and never again after the unmount; the transport's close
    event then takes the socket to CLOSED once, and a CLOSED socket stays
    CLOSED. *)
Theorem teardown_closes_open_channel_once :
  (forall w t ev w',
     reachable w -> step w (t, ev) = Some w' ->
     mounted w = true -> mounted w' = false -> socket w = Some OPEN ->
     socket w' = Some CLOSING /\ close_calls w' = 1)
  /\ (forall w t ev w',
        reachable w -> step w (t, ev) = Some w' ->
        mounted w = true -> mounted w' = false -> socket w <> Some OPEN ->
        socket w' = socket w /\ close_calls w' = 0)
  /\ (forall w,
        reachable w ->
        close_calls w <= 1 /\ (mounted w = true -> close_calls w = 0))
  /\ (forall w te w',
        reachable w -> step w te = Some w' -> mounted w = false ->
        mounted w' = false /\ close_calls w' = close_calls w)
  /\ (forall w t w',
        reachable w -> step w (t, SocketCloses) = Some w' ->
        socket w <> Some CLOSED /\ socket w' = Some CLOSED)
  /\ (forall w te w',
        reachable w -> step w te = Some w' -> socket w = Some CLOSED ->
        socket w' = Some CLOSED).
Proof.
  split; [|split; [|split; [|split; [|split]]]].
  - intros w t ev w' Hr Hstep Hm Hm' Hs.
    destruct (reachable_ok w Hr) as [Hok (_ & _ & Hcl & _)].
    destruct (step_spec w t ev w' Hok Hstep)
      as (_ & _ & _ & _ & _ & [(M & _)|(_ & _ & _ & _ & T4 & T5 & _)]).
    + congruence.
    + rewrite T4, T5, Hs, (Hcl Hm). split; reflexivity.
  - intros w t ev w' Hr Hstep Hm Hm' Hs.
    destruct (reachable_ok w Hr) as [Hok (_ & _ & Hcl & _)].
    destruct (step_spec w t ev w' Hok Hstep)
      as (_ & _ & _ & _ & _ & [(M & _)|(_ & _ & _ & _ & T4 & T5 & _)]).
    + congruence.
    + rewrite T4, T5, (Hcl Hm).
      destruct (socket w) as [[]|]; simpl; try (split; reflexivity).
      congruence.
  - intros w Hr. destruct (reachable_ok w Hr) as [_ (_ & _ & Hcl & Hle)].
    split; assumption.
  - intros w [t ev] w' Hr Hstep Hm.
    destruct (reachable_ok w Hr) as [Hok _].
    destruct (step_spec w t ev w' Hok Hstep)
      as (_ & _ & _ & _ & _ & [(M & CC & _)|(Hm' & _)]).
    + split; congruence.
    + congruence.
  - intros w t w' Hr Hstep. destruct (reachable_ok w Hr) as [Hok _].
    destruct (step_spec w t _ w' Hok Hstep)
      as (En & _ & _ & _ & _ & [(_ & _ & S & _)|(Hm & T1 & _)]).
    + split; [|exact S]. unfold enabled in En.
      apply andb_prop in En as [_ En]. intros E. rewrite E in En. discriminate.
    + exfalso. unfold step in Hstep. rewrite En in Hstep.
      injection Hstep as <-.
      pose proof (dispatch_console_frame
                    (set_socket (Some CLOSED) (set_clock t w))
                    [console_log "WebSocket connection closed" NoArg] eq_refl)
        as Hf.
      unframe Hf. unfold onclose in T1. simpl in Hmounted. congruence.
  - intros w [t ev] w' Hr Hstep Hs. destruct (reachable_ok w Hr) as [Hok _].
    destruct (step_spec w t ev w' Hok Hstep)
      as (En & _ & _ & _ & _ & [(_ & _ & S & _)|(_ & _ & _ & _ & T4 & _)]).
    + rewrite S. unfold enabled in En. apply andb_prop in En as [_ En].
      rewrite Hs in En. destruct ev; simpl; try exact Hs; discriminate.
    + rewrite T4, Hs. reflexivity.
Qed.

Lemma teardown_closes_open_channel_once_witness :
  socket (unmount (set_clock 2 opened)) = Some CLOSING
  /\ close_calls (unmount (set_clock 2 opened)) = 1.
Proof.
  apply (proj1 teardown_closes_open_channel_once opened 2%Z Unmount).
  - exists None, 0%Z, [(1%Z, SocketOpens)]. vm_compute. reflexivity.
  - vm_compute. reflexivity.
  - vm_compute. reflexivity.
  - vm_compute. reflexivity.
  - vm_compute. reflexivity.
Defined.

Lemma one_expiry_timer_drains_fifo_witness :
  exists w',
    fire_times 2 after_two_in_a_row = Some w'
    /\ notifications (state w')
       = skipn 2 (notifications (state after_two_in_a_row))
    /\ clock w' = (9000 + 5000 * Z.of_nat 1)%Z.
Proof.
  apply (proj2 (proj2 (proj2 one_expiry_timer_drains_fifo))
           after_two_in_a_row 2 9000%Z 1).
  - exists None, 0%Z, two_in_a_row. vm_compute. reflexivity.
  - vm_compute. reflexivity.
  - vm_compute. lia.
Defined.

(** C5, as the claim states it, fails on a frame that is not JSON: the
    handler does not log and return, it throws [SyntaxError] to its caller. *)
Lemma malformed_message_is_thrown_not_logged :
  deliver 0 initial_state (onmessage (Malformed "{")) = Uncaught SyntaxError
  /\ ~ only_logged initial_state
         (deliver 0 initial_state (onmessage (Malformed "{"))).
Proof.
  split; [reflexivity|]. intros (acts & H & _). discriminate H.
Qed.

Lemma step_socket_error (w : World) (t : Z) (w' : World) :
  step w (t, SocketError) = Some w' ->
  frame w' = frame (set_clock t w)
  /\ console w' = console w ++ [console_error "WebSocket error:" EventArg].
Proof.
  unfold step. destruct (enabled w t SocketError); [|discriminate].
  intros [= <-]. unfold dispatch, onerror. simpl.
  destruct (mounted w) eqn:E; unfold frame; simpl; rewrite ?E;
    split; reflexivity.
Qed.

Lemma step_malformed (w : World) (t : Z) (text : string) (w' : World) :
  step w (t, Message (Malformed text)) = Some w' ->
  w' = report SyntaxError (set_clock t w).
Proof.
  unfold step. destruct (enabled w t _); [|discriminate].
  intros [= <-]. reflexivity.
Qed.

(** C5, amended.  A channel error, and a message that decodes and carries an
    unrecognized kind, are logged and nothing else: the handler returns, its
    only call goes to the console, the state is unchanged, no socket is
    opened.  A frame that is not JSON is not logged: [JSON.parse] throws
    [SyntaxError] out of the handler to its caller (and [null] makes the read
    of the kind throw [TypeError]); the state, the socket and the console are
    unchanged and no socket is opened. *)
Theorem channel_failures_leave_state_alone :
  (forall Date_now s, only_logged s (deliver Date_now s onerror))
  /\ (forall Date_now s data kind,
        of_kind kind data ->
        kind <> JString "new_recommendation" ->
        kind <> JString "trending_update" ->
        only_logged s (deliver Date_now s (onmessage data)))
  /\ (forall Date_now s text,
        deliver Date_now s (onmessage (Malformed text)) = Uncaught SyntaxError)
  /\ (forall Date_now s,
        deliver Date_now s (onmessage (Encoded JNull)) = Uncaught TypeError)
  /\ (forall w t w',
        step w (t, SocketError) = Some w' ->
        state w' = state w /\ mounted w' = mounted w /\ socket w' = socket w
        /\ sockets_opened w' = sockets_opened w /\ uncaught w' = uncaught w
        /\ console w' = console w ++ [console_error "WebSocket error:" EventArg])
  /\ (forall w t text w',
        step w (t, Message (Malformed text)) = Some w' ->
        state w' = state w /\ mounted w' = mounted w /\ socket w' = socket w
        /\ sockets_opened w' = sockets_opened w /\ console w' = console w
        /\ uncaught w' = uncaught w ++ [SyntaxError]).
Proof.
  split; [|split; [|split; [|split; [|split]]]].
  - intros t s. eexists. split; [reflexivity|]. split; [discriminate|reflexivity].
  - intros t s data kind Hk H1 H2.
    rewrite (deliver_unknown t s data kind Hk H1 H2).
    eexists. split; [reflexivity|]. split; [discriminate|reflexivity].
  - reflexivity.
  - reflexivity.
  - intros w t w' Hs. destruct (step_socket_error w t w' Hs) as [Hf Hc].
    unframe Hf. simpl in *. repeat split; assumption.
  - intros w t text w' Hs. rewrite (step_malformed w t text w' Hs).
    simpl. repeat split.
Qed.

Lemma channel_failures_leave_state_alone_witness :
  only_logged initial_state
    (deliver 0 initial_state (onmessage (envelope "ping" "payload" JNull))).
Proof.
  apply (proj1 (proj2 channel_failures_leave_state_alone) 0%Z initial_state
           (envelope "ping" "payload" JNull) (JString "ping")).
  - exists (JObject [("type", JString "ping"); ("payload", JNull)]).
    split; reflexivity.
  - discriminate.
  - discriminate.
Defined.

(** C7, as the claim states it, fails on a queue of two toasts when the user
    closes the second: the second goes and the oldest stays. *)
Lemma dismissal_spares_the_oldest :
  outcome_state (deliver 3 two_toasts (onClose (toast 2 "B")))
  = Some (with_notifications [toast 1 "A"] initial_state)
  /\ [toast 1 "A"] <> tl (notifications two_toasts).
Proof. split; [reflexivity|discriminate]. Qed.

(** C7, amended.  Closing a toast removes from the queue exactly the entries
    that carry the identifier of the closed notification, wherever they
    stand, and keeps every other entry, in order; nothing else of the state
    changes. *)
Theorem dismissal_removes_by_identifier :
  forall (Date_now : Z) (s : State) (n : Notification),
    outcome_state (deliver Date_now s (onClose n))
    = Some (with_notifications
              (filter (fun m => negb (Z.eqb (id m) (id n))) (notifications s))
              s)
    /\ forall m,
         In m (filter (fun m => negb (Z.eqb (id m) (id n))) (notifications s))
         <-> In m (notifications s) /\ id m <> id n.
Proof.
  intros t s n. split; [reflexivity|].
  intros m. rewrite filter_In, negb_true_iff, Z.eqb_neq. reflexivity.
Qed.

Lemma called_fetchData (tp tr ai : result (list Value)) :
  NoDup (called (fetchData tp tr ai)).
Proof.
  destruct tp, tr, ai; simpl;
    repeat (constructor; [simpl; intuition discriminate|]); constructor.
Qed.

Lemma fetchers_settle_in_some_order (order : list Dashboard.Fetcher) :
  Permutation order
    [Dashboard.LearningData; Dashboard.Recommendations; Dashboard.TopCourses] ->
  In order
     [ [Dashboard.LearningData; Dashboard.Recommendations; Dashboard.TopCourses];
       [Dashboard.LearningData; Dashboard.TopCourses; Dashboard.Recommendations];
       [Dashboard.Recommendations; Dashboard.LearningData; Dashboard.TopCourses];
       [Dashboard.Recommendations; Dashboard.TopCourses; Dashboard.LearningData];
       [Dashboard.TopCourses; Dashboard.LearningData; Dashboard.Recommendations];
       [Dashboard.TopCourses; Dashboard.Recommendations; Dashboard.LearningData] ].
Proof.
  intros H. pose proof (Permutation_length H) as Hl.
  destruct order as [|a [|b [|c [|d rest]]]]; try discriminate Hl.
  assert (Hnd : NoDup [a; b; c]).
  { apply (Permutation_NoDup (Permutation_sym H)).
    repeat (constructor; [simpl; intuition discriminate|]). constructor. }
  inversion Hnd as [|? ? Ha Hnd1]; subst.
  inversion Hnd1 as [|? ? Hb _]; subst.
  destruct a, b, c; simpl in *; tauto.
Qed.

(* ================================================================== *)
(** * Data population *)
(* ================================================================== *)

Ltac settle_other_fetchers :=
  repeat match goal with
         | |- context [Dashboard.attempt ?m (?settled ?g)] =>
             destruct (Dashboard.attempt m (settled g))
         end.

(** C9, as the claim states it, fails on its last clause: a failed data
    population is not the only failure that shows.  A new-recommendation
    message without a course makes the notification updater throw
    [TypeError] while React applies it, and the landing page is unmounted. *)
Lemma courseless_recommendation_unmounts_page :
  deliver 2 (state opened) (onmessage courseless) = RenderError TypeError
  /\ option_map mounted (step opened (2%Z, Message courseless)) = Some false.
Proof. split; vm_compute; reflexivity. Qed.

(** C9, amended.  When the data population fails.  On the landing page
    ([fetchData] with some fetch rejecting): the rejection is caught and
    logged with [console.error], the only setter that runs is
    [setIsLoading(false)], so the lists stay as they were (empty at mount),
    and no fetch is called twice.  On the dashboard (whatever the order in which the three requests
    settle, for a fetcher whose request fails): the error is logged, the list
    the fetcher fills holds its sample data, [loading] ends up false, and the
    fetcher's URL was requested exactly once. *)
Theorem population_failure_is_caught :
  (forall (tp tr ai : result (list Value)) (Date_now : Z) (s : State),
     population_fails tp tr ai ->
     (exists e, In (console_error "Error fetching data:" (ThrownArg e))
                   (fetchData tp tr ai))
     /\ reduce Date_now s (fetchData tp tr ai)
        = Ok {| topPicks := topPicks s; trending := trending s;
                aiSuggestions := aiSuggestions s; isLoading := false;
                chatbotOpen := chatbotOpen s;
                notifications := notifications s |}
     /\ NoDup (called (fetchData tp tr ai)))
  /\ (forall (settled : Dashboard.Fetcher -> result Dashboard.Response)
             (order : list Dashboard.Fetcher) (f : Dashboard.Fetcher)
             (err : Thrown),
        Permutation order [Dashboard.LearningData; Dashboard.Recommendations;
                           Dashboard.TopCourses] ->
        Dashboard.attempt (Dashboard.failure f) (settled f) = Throw err ->
        In (Dashboard.console_error err) (Dashboard.populate settled order)
        /\ Dashboard.shown f
             (Dashboard.reduce Dashboard.initial_state
                (Dashboard.populate settled order))
           = Dashboard.fallback f
        /\ Dashboard.loading
             (Dashboard.reduce Dashboard.initial_state
                (Dashboard.populate settled order))
           = false
        /\ List.length (filter (Dashboard.is_fetch (Dashboard.url f))
                          (Dashboard.populate settled order)) = 1).
Proof.
  split.
  - intros tp tr ai t s Hfail. split; [|split].
    + destruct tp as [?|e]; [destruct tr as [?|e]; [destruct ai as [?|e]|]|];
        simpl in *; try contradiction; exists e; tauto.
    + destruct tp; [destruct tr; [destruct ai|]|];
        simpl in *; try contradiction; reflexivity.
    + apply called_fetchData.
  - intros settled order f err Hp Hf.
    apply fetchers_settle_in_some_order in Hp.
    unfold Dashboard.populate, Dashboard.reduce.
    simpl in Hp.
    destruct Hp as [<-|[<-|[<-|[<-|[<-|[<-|[]]]]]]];
      destruct f; unfold Dashboard.failure in Hf;
      cbn [flat_map Dashboard.continue];
      unfold Dashboard.fetchLearningData, Dashboard.fetchRecommendations,
        Dashboard.fetchTopCourses;
      rewrite Hf; settle_other_fetchers;
      (split; [simpl; tauto|]); repeat split; reflexivity.
Qed.

Lemma population_failure_is_caught_witness :
  (exists e, In (console_error "Error fetching data:" (ThrownArg e))
                (fetchData mockFetchTopPicks (Throw (Error "offline"))
                           mockFetchAiSuggestions))
  /\ reduce 0 initial_state
       (fetchData mockFetchTopPicks (Throw (Error "offline"))
                  mockFetchAiSuggestions)
     = Ok {| topPicks := []; trending := JArray []; aiSuggestions := [];
             isLoading := false; chatbotOpen := false; notifications := [] |}
  /\ NoDup (called (fetchData mockFetchTopPicks (Throw (Error "offline"))
                              mockFetchAiSuggestions)).
Proof.
  apply (proj1 population_failure_is_caught mockFetchTopPicks
           (Throw (Error "offline")) mockFetchAiSuggestions 0%Z initial_state).
  exact I.
Defined.

(* ================================================================== *)
(** * More on the landing page *)
(* ================================================================== *)

(** What a handler run commits on a mounted component. *)
Lemma dispatch_mounted_state (w : World) (r : result (list Action)) :
  mounted w = true ->
  match r with
  | Throw _ => state (dispatch w r) = state w /\ mounted (dispatch w r) = true
  | Ok acts =>
      match commit (clock w) (state w) acts with
      | Ok s' => state (dispatch w r) = s' /\ mounted (dispatch w r) = true
      | Throw _ =>
          state (dispatch w r) = state w /\ mounted (dispatch w r) = false
      end
  end.
Proof.
  intros Hm. destruct r as [acts|e]; simpl; [|split; [reflexivity|exact Hm]].
  destruct (effects_state_clock acts w) as [Hs Hc].
  pose proof (effects_mounted acts w) as Hmm.
  set (w1 := fold_left effect acts w) in *. rewrite Hmm, Hm, Hs, Hc.
  destruct (commit (clock w) (state w) acts) as [s'|e].
  - destruct (existsb sets_notifications acts);
      rewrite ?state_expiry_effect, ?mounted_expiry_effect; simpl;
      split; congruence.
  - rewrite state_unmount. split; [exact Hs|reflexivity].
Qed.

Lemma step_mounted_state (w : World) (t : Z) (ev : Event) (w' : World) :
  mounted w = true -> step w (t, ev) = Some w' -> ev <> Unmount ->
  match handler ev with
  | Throw _ => state w' = state w /\ mounted w' = true
  | Ok acts =>
      match commit t (state w) acts with
      | Ok s' => state w' = s' /\ mounted w' = true
      | Throw _ => state w' = state w /\ mounted w' = false
      end
  end.
Proof.
  intros Hm Hstep Hev. unfold step in Hstep.
  destruct (enabled w t ev); [|discriminate].
  injection Hstep as Hstep. subst w'.
  destruct ev as [|data| | |n|timer|]; [| | | | | |congruence].
  - exact (dispatch_mounted_state (set_socket (Some OPEN) (set_clock t w))
             onopen Hm).
  - exact (dispatch_mounted_state (set_clock t w) (onmessage data) Hm).
  - exact (dispatch_mounted_state (set_clock t w) onerror Hm).
  - exact (dispatch_mounted_state (set_socket (Some CLOSED) (set_clock t w))
             onclose Hm).
  - exact (dispatch_mounted_state (set_clock t w) (onClose n) Hm).
  - exact (dispatch_mounted_state (clearTimeout timer (set_clock t w))
             expire Hm).
Qed.

(** How one handler run can change the queue, and what it leaves alone. *)
Lemma handler_queue (ev : Event) (acts : list Action) (t : Z) (s s' : State) :
  handler ev = Ok acts -> reduce t s acts = Ok s' ->
  (topPicks s' = topPicks s /\ isLoading s' = isLoading s
   /\ chatbotOpen s' = chatbotOpen s)
  /\ (notifications s' = notifications s
      \/ (exists text, notifications s' = notifications s ++ [toast t text])
      \/ (exists n, ev = Dismiss n
                    /\ notifications s'
                       = filter (fun m => negb (Z.eqb (id m) (id n)))
                                (notifications s))
      \/ notifications s' = tl (notifications s)).
Proof.
  destruct ev as [|data| | |n|timer|]; simpl;
    try (intros [= <-]; simpl; intros [= <-]; simpl;
         split; [repeat split|left; reflexivity]).
  - unfold onmessage. destruct data as [v|text]; simpl; [|discriminate].
    destruct (get v "type") as [ty|]; simpl; [|discriminate].
    destruct (strict_equals_string ty "new_recommendation").
    + intros [= <-]. simpl. unfold slice_to.
      destruct (get v "course") as [c|]; simpl; [|discriminate].
      destruct (get c "title") as [title|]; simpl; [|discriminate].
      destruct (ToString title) as [text|]; simpl; [|discriminate].
      intros [= <-]. cbn [topPicks isLoading chatbotOpen notifications].
      split; [repeat split|]. right. left. exists text. reflexivity.
    + destruct (strict_equals_string ty "trending_update").
      * destruct (get v "courses"); simpl; [|discriminate].
        intros [= <-]. simpl. intros [= <-]. simpl.
        split; [repeat split|left; reflexivity].
      * intros [= <-]. simpl. intros [= <-].
        split; [repeat split|left; reflexivity].
  - intros [= <-]. simpl. intros [= <-]. simpl.
    split; [repeat split|]. right. right. left. exists n. split; reflexivity.
  - intros [= <-]. simpl. intros [= <-]. simpl.
    split; [repeat split|]. right. right. right.
    destruct (notifications s); reflexivity.
Qed.

Lemma step_queue (w : World) (t : Z) (ev : Event) (w' : World) :
  step w (t, ev) = Some w' ->
  notifications (state w') = notifications (state w)
  \/ (exists text,
        notifications (state w') = notifications (state w) ++ [toast t text])
  \/ (exists n, ev = Dismiss n
                /\ notifications (state w')
                   = filter (fun m => negb (Z.eqb (id m) (id n)))
                            (notifications (state w)))
  \/ notifications (state w') = tl (notifications (state w)).
Proof.
  intros Hstep.
  destruct (step_state w t ev w' Hstep) as [->|(acts & Hh & Hr)].
  - left. reflexivity.
  - exact (proj2 (handler_queue ev acts t _ _ Hh Hr)).
Qed.

Lemma StronglySorted_snoc {A : Type} (R : A -> A -> Prop) (l : list A) (x : A) :
  StronglySorted R l -> (forall a, In a l -> R a x) ->
  StronglySorted R (l ++ [x]).
Proof.
  induction 1 as [|a l Hs IH Hf]; intros Hx; simpl.
  - constructor; constructor.
  - constructor.
    + apply IH. intros b Hb. apply Hx. right. exact Hb.
    + apply Forall_app. split; [exact Hf|].
      constructor; [|constructor]. apply Hx. left. reflexivity.
Qed.

Lemma StronglySorted_filter {A : Type} (R : A -> A -> Prop) (f : A -> bool)
  (l : list A) :
  StronglySorted R l -> StronglySorted R (filter f l).
Proof.
  induction 1 as [|a l Hs IH Hf]; simpl; [constructor|].
  destruct (f a); [|exact IH]. constructor; [exact IH|].
  rewrite Forall_forall in *. intros b Hb. apply filter_In in Hb as [Hb _].
  exact (Hf b Hb).
Qed.

Lemma StronglySorted_tl {A : Type} (R : A -> A -> Prop) (l : list A) :
  StronglySorted R l -> StronglySorted R (tl l).
Proof. destruct 1; simpl; [constructor|assumption]. Qed.

Lemma In_tl {A : Type} (x : A) (l : list A) : In x (tl l) -> In x l.
Proof. destruct l; simpl; [exact (fun H => H)|]. intros H. right. exact H. Qed.

Lemma step_ages (w : World) (t : Z) (ev : Event) (w' : World) :
  timers_ok w -> ages_ok w -> step w (t, ev) = Some w' -> ages_ok w'.
Proof.
  intros Hok (HA & HS & HC) Hstep.
  destruct (step_spec w t ev w' Hok Hstep)
    as (_ & Hclk & _ & C & _ & Hcases).
  pose proof (step_queue w t ev w' Hstep) as Hq.
  assert (HA' : forall n, In n (notifications (state w')) -> (id n <= t)%Z).
  { intros n Hn.
    destruct Hq as [Hq|[(text & Hq)|[(m & _ & Hq)|Hq]]]; rewrite Hq in Hn.
    - specialize (HA n Hn). lia.
    - apply in_app_or in Hn as [Hn|[<-|[]]].
      + specialize (HA n Hn). lia.
      + simpl. lia.
    - apply filter_In in Hn as [Hn _]. specialize (HA n Hn). lia.
    - apply In_tl in Hn. specialize (HA n Hn). lia. }
  split; [|split].
  - rewrite C. exact HA'.
  - destruct Hq as [Hq|[(text & Hq)|[(m & _ & Hq)|Hq]]]; rewrite Hq.
    + exact HS.
    + apply StronglySorted_snoc; [exact HS|].
      intros a Ha. simpl. specialize (HA a Ha). lia.
    + apply StronglySorted_filter, HS.
    + apply StronglySorted_tl, HS.
  - intros n p Hn Hp.
    destruct Hcases
      as [(_ & _ & _ & [(Q1 & Q2 & _)|(_ & R1 & _)])|(_ & _ & T2 & _)].
    + rewrite Q1 in Hn. rewrite Q2 in Hp. exact (HC n p Hn Hp).
    + change (timers w' = scheduled (next_handle w) t
                            (notifications (state w'))) in R1.
      rewrite R1 in Hp. specialize (HA' n Hn).
      destruct (notifications (state w')); simpl in Hp; [destruct Hp|].
      destruct Hp as [<-|[]]. simpl. lia.
    + rewrite T2 in Hp. destruct Hp.
Qed.

Lemma run_ages (trace : list (Z * Event)) :
  forall w w', timers_ok w -> ages_ok w -> run w trace = Some w' ->
               ages_ok w'.
Proof.
  induction trace as [|[t ev] trace IH]; cbn [run]; intros w w' Ht Ha Hrun.
  - injection Hrun as <-. exact Ha.
  - destruct (step w (t, ev)) as [w1|] eqn:Hs; [|discriminate].
    exact (IH w1 w' (step_timers_ok w _ w1 Ht Hs) (step_ages w t ev w1 Ht Ha Hs)
              Hrun).
Qed.

Lemma reachable_ages (w : World) : reachable w -> ages_ok w.
Proof.
  intros (env & t0 & trace & Hrun).
  apply (run_ages trace (mount env t0) w (proj1 (mount_ok env t0))); [|exact Hrun].
  assert (E : notifications (state (mount env t0)) = []) by reflexivity.
  unfold ages_ok. rewrite E. split; [|split].
  - intros n [].
  - constructor.
  - intros n p [].
Qed.

(** X1.  The expiry timer never removes a toast that has been in the queue
    for less than 5000 ms: when a timer fires, every toast of the queue, the
    head it removes included, was inserted at least 5000 ms earlier. *)
Theorem timer_spares_toasts_younger_than_five_seconds :
  forall (w : World) (t : Z) (timer : nat) (w' : World) (n : Notification),
    reachable w -> step w (t, TimerFires timer) = Some w' ->
    In n (notifications (state w)) ->
    (id n + 5000 <= t)%Z
    /\ notifications (state w') = tl (notifications (state w)).
Proof.
  intros w t timer w' n Hr Hstep Hn.
  destruct (reachable_ages w Hr) as (_ & _ & HC).
  destruct (reachable_ok w Hr) as [Hok _].
  destruct (step_spec w t _ w' Hok Hstep) as (En & _).
  unfold enabled in En. apply andb_prop in En as [_ En].
  apply existsb_exists in En as ([h d] & Hp & E). simpl in E.
  apply andb_prop in E as [_ E]. apply Z.eqb_eq in E. subst d.
  split; [exact (HC n (h, t) Hn Hp)|].
  assert (Hm : mounted w = true).
  { unfold timers_ok in Hok. destruct (mounted w); [reflexivity|].
    destruct Hok as [E _]. rewrite E in Hp. destruct Hp. }
  exact (proj1 (timer_fires_head w t timer w' Hm (reachable_drawn w Hr) Hstep)).
Qed.

Lemma timer_spares_toasts_younger_than_five_seconds_witness :
  (id (toast 4000 "Intro to Go") + 5000 <= 9000)%Z
  /\ notifications (state (dispatch (clearTimeout 2
                                       (set_clock 9000 after_two_in_a_row))
                                    expire))
     = tl (notifications (state after_two_in_a_row)).
Proof.
  apply (timer_spares_toasts_younger_than_five_seconds
           after_two_in_a_row 9000 2).
  - exists None, 0%Z, two_in_a_row. vm_compute. reflexivity.
  - vm_compute. reflexivity.
  - vm_compute. right. left. reflexivity.
Defined.

(** X2.  In every world a run reaches, the queue holds the toasts in the
    order of their insertion times, none of which lies in the future. *)
Theorem queue_in_arrival_order :
  forall w : World,
    reachable w ->
    StronglySorted (fun a b => (id a <= id b)%Z) (notifications (state w))
    /\ forall n, In n (notifications (state w)) -> (id n <= clock w)%Z.
Proof.
  intros w Hr. destruct (reachable_ages w Hr) as (HA & HS & _).
  split; assumption.
Qed.

Lemma queue_in_arrival_order_witness :
  StronglySorted (fun a b => (id a <= id b)%Z)
                 (notifications (state six_seconds_in))
  /\ forall n, In n (notifications (state six_seconds_in)) ->
               (id n <= clock six_seconds_in)%Z.
Proof.
  apply (queue_in_arrival_order six_seconds_in).
  exists None, 0%Z, (two_in_a_row ++ [(6000%Z, SocketError)]).
  vm_compute. reflexivity.
Defined.

Lemma run_app (tr1 tr2 : list (Z * Event)) :
  forall w, run w (tr1 ++ tr2)
            = match run w tr1 with
              | Some w1 => run w1 tr2
              | None => None
              end.
Proof.
  induction tr1 as [|te tr1 IH]; intros w; cbn [run app]; [reflexivity|].
  destruct (step w te); [apply IH|reflexivity].
Qed.

Lemma deliver_Handled_inv (t : Z) (s s' : State) (r : result (list Action))
  (acts : list Action) :
  deliver t s r = Handled s' acts -> r = Ok acts /\ reduce t s acts = Ok s'.
Proof.
  unfold deliver. destruct r as [a|e]; [|discriminate].
  destruct (reduce t s a) eqn:E; [|discriminate].
  intros [= <- <-]. split; [reflexivity|exact E].
Qed.

(** A recommendation of a course the card can draw that arrives while the
    socket is open, on a mounted component and before the pending timer is
    due: it is queued and the countdown restarts. *)
Lemma step_new_recommendation (w : World) (t : Z) (data : Payload)
  (c : Value) (text : string) :
  timers_ok w -> drawn w -> mounted w = true -> socket w = Some OPEN ->
  on_time w t = true ->
  new_recommendation c data -> titled text c -> renderable true c ->
  exists w',
    step w (t, Message data) = Some w'
    /\ timers_ok w' /\ drawn w' /\ mounted w' = true /\ socket w' = Some OPEN
    /\ clock w' = t
    /\ state w' = with_suggestion c (toast t text) (state w)
    /\ timers w' = [(next_handle w, (t + 5000)%Z)].
Proof.
  intros Hok Hd Hm Hs Hon Hnew Ht Hc.
  assert (En : enabled w t (Message data) = true).
  { unfold enabled. rewrite Hon, Hs. reflexivity. }
  destruct (step w (t, Message data)) as [w'|] eqn:Hstep.
  2:{ unfold step in Hstep. rewrite En in Hstep. discriminate. }
  exists w'. split; [reflexivity|].
  destruct (deliver_new_recommendation t (state w) data c text Hnew Ht)
    as [acts Hdel].
  apply deliver_Handled_inv in Hdel as [Hh Hr].
  pose proof (step_mounted_state w t _ w' Hm Hstep) as Hst.
  simpl handler in Hst.
  rewrite Hh, (commit_rendered _ _ _ _ Hr
                 (render_with_suggestion c _ _ (Hd Hm) Hc)) in Hst.
  destruct Hst as [Hst Hm']; [discriminate|].
  destruct (step_spec w t _ w' Hok Hstep)
    as (_ & _ & _ & C & _ & [(_ & _ & S & Q)|(_ & T1 & _)]); [|congruence].
  split; [exact (step_timers_ok w _ w' Hok Hstep)|].
  split; [exact (step_drawn w _ w' Hd Hstep)|].
  split; [exact Hm'|]. split; [rewrite S; exact Hs|].
  split; [exact C|]. split; [exact Hst|].
  destruct Q as [(Q1 & _)|(_ & R1 & _)].
  - exfalso. rewrite Hst in Q1. simpl in Q1.
    apply (f_equal (@List.length _)) in Q1. rewrite length_app in Q1.
    simpl in Q1. lia.
  - change (timers w' = scheduled (next_handle w) t (notifications (state w')))
      in R1.
    rewrite R1, Hst. simpl. destruct (notifications (state w)); reflexivity.
Qed.

Lemma drip_keeps_the_first_toast (k : nat) :
  exists w,
    run (mount None 0) (drip k) = Some w
    /\ timers_ok w /\ drawn w /\ mounted w = true /\ socket w = Some OPEN
    /\ clock w = (4000 * Z.of_nat k)%Z
    /\ (exists timer, timers w = [(timer, (4000 * Z.of_nat k + 5000)%Z)])
    /\ hd_error (notifications (state w)) = Some (toast 0 "Intro to Rust")
    /\ List.length (notifications (state w)) = S k.
Proof.
  induction k
    as [|k (w & Hrun & Hok & Hd & Hm & Hs & Hc & (h & Ht) & Hhd & Hlen)].
  - eexists. split; [vm_compute; reflexivity|].
    split.
    { apply reachable_ok. exists None, 0%Z, (drip 0). vm_compute. reflexivity. }
    split.
    { apply reachable_drawn. exists None, 0%Z, (drip 0).
      vm_compute. reflexivity. }
    repeat split. exists 1. reflexivity.
  - assert (Hon : on_time w (4000 * Z.of_nat (S k))%Z = true).
    { unfold on_time. rewrite Ht, Hc. cbn [forallb snd].
      apply andb_true_intro. split; [apply Z.leb_le; lia|].
      apply andb_true_intro. split; [apply Z.leb_le; lia|reflexivity]. }
    destruct (step_new_recommendation w (4000 * Z.of_nat (S k))%Z go
                (titled_course "22" "Intro to Go") "Intro to Go"
                Hok Hd Hm Hs Hon (envelope_new_recommendation _)
                (titled_course_titled _ _) (titled_course_renderable _ _ _))
      as (w' & Hstep & Hok' & Hd' & Hm' & Hs' & Hc' & Hst & Ht').
    exists w'. split.
    { unfold drip in *. rewrite seq_S, map_app, app_assoc, run_app, Hrun.
      cbn [map run Nat.add]. rewrite Hstep. reflexivity. }
    split; [exact Hok'|]. split; [exact Hd'|]. split; [exact Hm'|].
    split; [exact Hs'|].
    split; [exact Hc'|]. split.
    { exists (next_handle w). rewrite Ht'. reflexivity. }
    rewrite Hst. cbn [notifications with_suggestion].
    split.
    + destruct (notifications (state w)); [discriminate Hhd|exact Hhd].
    + rewrite length_app, Hlen. simpl. lia.
Qed.

(** X3.  There is no bound on how long a toast stays: with one more
    recommendation (of a course the card draws) every 4 s the timer is
    cancelled before it is due each time, and the toast inserted at time 0
    still heads the queue of the mounted component [4000 * k] ms later,
    whatever [k]. *)
Theorem toast_stays_as_long_as_others_keep_arriving :
  forall k : nat,
    exists w,
      run (mount None 0) (drip k) = Some w
      /\ mounted w = true
      /\ clock w = (4000 * Z.of_nat k)%Z
      /\ hd_error (notifications (state w)) = Some (toast 0 "Intro to Rust")
      /\ List.length (notifications (state w)) = S k.
Proof.
  intros k.
  destruct (drip_keeps_the_first_toast k)
    as (w & Hrun & _ & _ & Hm & _ & Hc & _ & Hhd & Hlen).
  exists w. repeat split; assumption.
Qed.

Lemma filter_all {A : Type} (f : A -> bool) (l : list A) :
  (forall x, In x l -> f x = true) -> filter f l = l.
Proof.
  induction l as [|a l IH]; simpl; intros H; [reflexivity|].
  rewrite (H a (or_introl eq_refl)). f_equal. apply IH.
  intros x Hx. apply H. right. exact Hx.
Qed.

(** X4.  When the identifiers of the queue are pairwise distinct (no two
    recommendations arrived in the same millisecond), closing a toast of the
    queue removes that toast and nothing else: the toasts before it and
    after it stay, in order. *)
Theorem dismissal_removes_one_when_ids_distinct :
  forall (Date_now : Z) (s : State) (n : Notification),
    In n (notifications s) ->
    NoDup (map id (notifications s)) ->
    exists before after,
      notifications s = before ++ n :: after
      /\ outcome_state (deliver Date_now s (onClose n))
         = Some (with_notifications (before ++ after) s).
Proof.
  intros t s n Hin Hnd.
  destruct (in_split n (notifications s) Hin) as (b & a & E).
  exists b, a. split; [exact E|].
  unfold deliver, onClose. simpl. unfold with_notifications. do 2 f_equal.
  rewrite E in Hnd |- *. rewrite map_app in Hnd. simpl in Hnd.
  pose proof (NoDup_remove_2 _ _ _ Hnd) as Hnot.
  rewrite filter_app. simpl. rewrite Z.eqb_refl. simpl.
  rewrite !filter_all; [reflexivity| |].
  - intros x Hx. apply negb_true_iff, Z.eqb_neq. intros Heq.
    apply Hnot. apply in_or_app. right. rewrite <- Heq. apply in_map, Hx.
  - intros x Hx. apply negb_true_iff, Z.eqb_neq. intros Heq.
    apply Hnot. apply in_or_app. left. rewrite <- Heq. apply in_map, Hx.
Qed.

Lemma dismissal_removes_one_when_ids_distinct_witness :
  exists before after,
    notifications two_toasts = before ++ toast 2 "B" :: after
    /\ outcome_state (deliver 3 two_toasts (onClose (toast 2 "B")))
       = Some (with_notifications (before ++ after) two_toasts).
Proof.
  apply (dismissal_removes_one_when_ids_distinct 3 two_toasts (toast 2 "B")).
  - right. left. reflexivity.
  - repeat constructor; simpl; intuition discriminate.
Defined.

(** X5.  Two recommendations (of courses the card draws) that arrive in
    the same millisecond get the same identifier, and closing the toast of
    the first also removes the toast of the second: what is left of the
    queue is what was there before the two arrived, less any older toast of
    that millisecond. *)
Theorem same_millisecond_toasts_close_together :
  forall (s : State) (t t' : Z) (m1 m2 : Payload) (c1 c2 : Value)
         (x1 x2 : string),
    new_recommendation c1 m1 -> titled x1 c1 -> renderable true c1 ->
    new_recommendation c2 m2 -> titled x2 c2 -> renderable true c2 ->
    render s = Ok tt ->
    exists s2,
      deliver_all s [(t, m1); (t, m2)] = Some s2
      /\ notifications s2 = notifications s ++ [toast t x1; toast t x2]
      /\ outcome_state (rendered t' s2 (onClose (toast t x1)))
         = Some (with_notifications
                   (filter (fun m => negb (Z.eqb (id m) t)) (notifications s))
                   s2).
Proof.
  intros s t t' m1 m2 c1 c2 x1 x2 H1 T1 R1 H2 T2 R2 Hs.
  pose proof (render_with_suggestion c1 (toast t x1) s Hs R1) as Hs1.
  pose proof (render_with_suggestion c2 (toast t x2) _ Hs1 R2) as Hs2.
  destruct (rendered_new_recommendation t s m1 c1 x1 H1 T1 R1 Hs) as [a1 D1].
  destruct (rendered_new_recommendation t (with_suggestion c1 (toast t x1) s)
              m2 c2 x2 H2 T2 R2 Hs1) as [a2 D2].
  eexists. cbn [deliver_all]. rewrite D1, D2. split; [reflexivity|].
  cbn [notifications with_suggestion]. rewrite <- app_assoc.
  split; [reflexivity|].
  assert (F : forall l,
             filter (fun m => negb (Z.eqb (id m) t))
                    ((l ++ [toast t x1]) ++ [toast t x2])
             = filter (fun m => negb (Z.eqb (id m) t)) l).
  { intros l. rewrite !filter_app. simpl. rewrite Z.eqb_refl. simpl.
    rewrite !app_nil_r. reflexivity. }
  rewrite (rendered_onClose t' _ (toast t x1) Hs2).
  cbn [notifications with_suggestion id toast]. rewrite F. reflexivity.
Qed.

Lemma same_millisecond_toasts_close_together_witness :
  exists s2,
    deliver_all (state opened) [(7%Z, rust); (7%Z, go)] = Some s2
    /\ notifications s2
       = notifications (state opened)
         ++ [toast 7 "Intro to Rust"; toast 7 "Intro to Go"]
    /\ outcome_state (rendered 9 s2 (onClose (toast 7 "Intro to Rust")))
       = Some (with_notifications
                 (filter (fun m => negb (Z.eqb (id m) 7))
                         (notifications (state opened)))
                 s2).
Proof.
  apply (same_millisecond_toasts_close_together (state opened) 7 9 rust go
           (titled_course "21" "Intro to Rust")
           (titled_course "22" "Intro to Go")).
  - apply envelope_new_recommendation.
  - apply titled_course_titled.
  - apply titled_course_renderable.
  - apply envelope_new_recommendation.
  - apply titled_course_titled.
  - apply titled_course_renderable.
  - vm_compute. reflexivity.
Defined.

(** X6.  Closing a toast restarts the countdown of the others: after a
    dismissal at time [t] the timer that was pending is cancelled and, if
    toasts are left, the next expiry is due at [t + 5000]. *)
Theorem dismissal_restarts_countdown :
  forall (w : World) (t : Z) (n : Notification) (w' : World),
    reachable w -> step w (t, Dismiss n) = Some w' ->
    mounted w' = true
    /\ notifications (state w')
       = filter (fun m => negb (Z.eqb (id m) (id n))) (notifications (state w))
    /\ timers w' = scheduled (next_handle w) t (notifications (state w')).
Proof.
  intros w t n w' Hr Hstep. destruct (reachable_ok w Hr) as [Hok _].
  destruct (step_spec w t _ w' Hok Hstep) as (En & _ & _ & _ & _ & Hcases).
  unfold enabled in En. apply andb_prop in En as [_ En].
  apply andb_prop in En as [Hm En].
  pose proof (step_mounted_state w t _ w' Hm Hstep) as Hst.
  cbn [handler] in Hst. unfold onClose in Hst.
  rewrite (commit_queue t (state w) _
             (filter (fun m => negb (Z.eqb (id m) (id n)))
                     (notifications (state w)))
             eq_refl (reachable_drawn w Hr Hm)) in Hst.
  destruct Hst as [Hst Hm']; [discriminate|].
  split; [exact Hm'|]. split; [rewrite Hst; reflexivity|].
  destruct Hcases as [(_ & _ & _ & [(Q1 & _)|(_ & R1 & _)])|(_ & T1 & _)].
  - exfalso. apply existsb_exists in En as (n' & Hn' & E).
    unfold Notification_eqb in E. apply andb_prop in E as [E _].
    rewrite <- Q1, Hst in Hn'. simpl in Hn'.
    apply filter_In in Hn' as [_ Hf]. apply negb_true_iff in Hf.
    apply Z.eqb_eq in E. apply Z.eqb_neq in Hf. congruence.
  - exact R1.
  - congruence.
Qed.

Lemma dismissal_restarts_countdown_witness :
  mounted (dispatch (set_clock 4500 after_two_in_a_row)
                    (onClose (toast 0 "Intro to Rust"))) = true
  /\ notifications (state (dispatch (set_clock 4500 after_two_in_a_row)
                                    (onClose (toast 0 "Intro to Rust"))))
     = filter (fun m => negb (Z.eqb (id m) (id (toast 0 "Intro to Rust"))))
              (notifications (state after_two_in_a_row))
  /\ timers (dispatch (set_clock 4500 after_two_in_a_row)
                      (onClose (toast 0 "Intro to Rust")))
     = scheduled (next_handle after_two_in_a_row) 4500
         (notifications (state (dispatch (set_clock 4500 after_two_in_a_row)
                                         (onClose (toast 0 "Intro to Rust"))))).
Proof.
  apply (dismissal_restarts_countdown after_two_in_a_row 4500
           (toast 0 "Intro to Rust")).
  - exists None, 0%Z, two_in_a_row. vm_compute. reflexivity.
  - vm_compute. reflexivity.
Defined.

(** X7.  Whatever happens (errors, the close of the connection, messages,
    the unmount), over a whole run the component creates exactly one
    WebSocket: the one of the mount.  Nothing reconnects. *)
Theorem one_socket_per_mount :
  forall w : World, reachable w -> sockets_opened w = 1 /\ socket w <> None.
Proof.
  intros w Hr. destruct (reachable_ok w Hr) as [_ (H1 & H2 & _)].
  split; assumption.
Qed.

Lemma one_socket_per_mount_witness :
  sockets_opened six_seconds_in = 1 /\ socket six_seconds_in <> None.
Proof.
  apply (one_socket_per_mount six_seconds_in).
  exists None, 0%Z, (two_in_a_row ++ [(6000%Z, SocketError)]).
  vm_compute. reflexivity.
Defined.

Lemma run_unmounted (trace : list (Z * Event)) :
  forall w w', timers_ok w -> mounted w = false -> run w trace = Some w' ->
               mounted w' = false /\ close_calls w' = close_calls w.
Proof.
  induction trace as [|[t ev] trace IH]; cbn [run]; intros w w' Hok Hm Hrun.
  - injection Hrun as <-. split; [exact Hm|reflexivity].
  - destruct (step w (t, ev)) as [w1|] eqn:Hs; [|discriminate].
    destruct (step_spec w t ev w1 Hok Hs)
      as (_ & _ & _ & _ & _ & [(M & CC & _)|(Hm' & _)]); [|congruence].
    destruct (IH w1 w' (step_timers_ok w _ w1 Hok Hs)) as [H1 H2];
      [congruence|exact Hrun|].
    split; [exact H1|congruence].
Qed.

(** X8.  The cleanup closes the socket only if it is OPEN, so unmounting
    while the socket is still CONNECTING leaves it alone: the socket then
    opens on an unmounted component, and nothing the component does later
    ever calls [close()] on it. *)
Theorem socket_connecting_at_unmount_is_never_closed :
  forall (w : World) (t t' : Z) (w1 w2 w3 : World) (trace : list (Z * Event)),
    reachable w -> socket w = Some CONNECTING ->
    step w (t, Unmount) = Some w1 ->
    step w1 (t', SocketOpens) = Some w2 ->
    run w2 trace = Some w3 ->
    socket w1 = Some CONNECTING
    /\ socket w2 = Some OPEN
    /\ mounted w3 = false /\ close_calls w3 = 0.
Proof.
  intros w t t' w1 w2 w3 trace Hr Hs H1 H2 H3.
  destruct (reachable_ok w Hr) as [Hok (_ & _ & Hcl & _)].
  pose proof (step_timers_ok w _ w1 Hok H1) as Hok1.
  pose proof (step_timers_ok w1 _ w2 Hok1 H2) as Hok2.
  destruct (step_spec w t _ w1 Hok H1)
    as (En & _ & _ & _ & _ & [(M & _)|(Hm & T1 & _ & _ & T4 & T5 & _)]).
  { unfold enabled in En. apply andb_prop in En as [_ En].
    exfalso. unfold step in H1. unfold enabled in H1.
    destruct (on_time w t); [|discriminate]. rewrite En in H1. simpl in H1.
    injection H1 as <-. revert M. rewrite En. discriminate. }
  rewrite Hs in T4, T5. simpl in T4, T5. rewrite (Hcl Hm) in T5.
  destruct (step_spec w1 t' _ w2 Hok1 H2)
    as (_ & _ & _ & _ & _ & [(M2 & CC2 & S2 & _)|(Hm2 & _)]); [|congruence].
  destruct (run_unmounted trace w2 w3 Hok2) as [M3 CC3];
    [congruence|exact H3|].
  split; [exact T4|]. split; [exact S2|]. split; [exact M3|]. congruence.
Qed.

Lemma socket_connecting_at_unmount_is_never_closed_witness :
  socket (unmount (set_clock 1 (mount None 0))) = Some CONNECTING
  /\ socket (dispatch (set_socket (Some OPEN)
                         (set_clock 2 (unmount (set_clock 1 (mount None 0)))))
                      onopen) = Some OPEN
  /\ mounted (dispatch (set_socket (Some OPEN)
                          (set_clock 2 (unmount (set_clock 1 (mount None 0)))))
                       onopen) = false
  /\ close_calls (dispatch (set_socket (Some OPEN)
                              (set_clock 2
                                 (unmount (set_clock 1 (mount None 0)))))
                           onopen) = 0.
Proof.
  apply (socket_connecting_at_unmount_is_never_closed (mount None 0) 1 2
           _ _ _ []).
  - exists None, 0%Z, []. reflexivity.
  - vm_compute. reflexivity.
  - vm_compute. reflexivity.
  - vm_compute. reflexivity.
  - reflexivity.
Defined.

(** X9.  The notification queue has no cap: a batch of new-recommendation
    messages, each with a course the card draws, received by a page that is
    showing its state, appends one toast per message, in arrival order, each
    stamped with the clock reading of its arrival and carrying the title of
    its course; top picks, the trending list, the loading flag and the chat
    flag are not touched. *)
Theorem recommendations_queue_one_toast_each :
  forall (msgs : list (Z * Payload)) (texts : list string),
    Forall2 (fun m x => exists c, new_recommendation c (snd m) /\ titled x c
                                  /\ renderable true c)
            msgs texts ->
    forall s : State,
    render s = Ok tt ->
    exists s',
      deliver_all s msgs = Some s'
      /\ notifications s' = notifications s ++ toasts msgs texts
      /\ List.length (notifications s')
         = List.length (notifications s) + List.length msgs
      /\ topPicks s' = topPicks s /\ trending s' = trending s
      /\ isLoading s' = isLoading s /\ chatbotOpen s' = chatbotOpen s.
Proof.
  induction 1 as [|[t data] x msgs texts (c & Hnew & Ht & Hc) HF IH];
    intros s Hs.
  - exists s. cbn [deliver_all]. unfold toasts. simpl.
    rewrite app_nil_r, Nat.add_0_r. repeat split.
  - destruct (rendered_new_recommendation t s data c x Hnew Ht Hc Hs)
      as [acts Hd].
    destruct (IH (with_suggestion c (toast t x) s)
                (render_with_suggestion c _ s Hs Hc))
      as (s' & Hrun & Hq & Hlen & H1 & H2 & H3 & H4).
    exists s'. cbn [deliver_all]. rewrite Hd.
    split; [exact Hrun|]. split; [|split].
    + rewrite Hq. cbn [notifications with_suggestion]. unfold toasts.
      cbn [combine map fst snd]. rewrite <- app_assoc. reflexivity.
    + rewrite Hlen. cbn [notifications with_suggestion].
      rewrite length_app. simpl. lia.
    + repeat split; assumption.
Qed.

Lemma recommendations_queue_one_toast_each_witness :
  exists s',
    deliver_all (state opened) [(5%Z, rust); (6%Z, go)] = Some s'
    /\ notifications s'
       = notifications (state opened)
         ++ toasts [(5%Z, rust); (6%Z, go)] ["Intro to Rust"; "Intro to Go"]
    /\ List.length (notifications s')
       = List.length (notifications (state opened))
         + List.length [(5%Z, rust); (6%Z, go)]
    /\ topPicks s' = topPicks (state opened)
    /\ trending s' = trending (state opened)
    /\ isLoading s' = isLoading (state opened)
    /\ chatbotOpen s' = chatbotOpen (state opened).
Proof.
  apply (recommendations_queue_one_toast_each
           [(5%Z, rust); (6%Z, go)] ["Intro to Rust"; "Intro to Go"]).
  - repeat constructor.
    + exists (titled_course "21" "Intro to Rust").
      split; [apply envelope_new_recommendation|].
      split; [apply titled_course_titled|apply titled_course_renderable].
    + exists (titled_course "22" "Intro to Go").
      split; [apply envelope_new_recommendation|].
      split; [apply titled_course_titled|apply titled_course_renderable].
  - vm_compute. reflexivity.
Defined.





(** X11.  A new-recommendation message whose course is missing or [null]:
    the handler returns, but the notification updater throws [TypeError] on
    [data.course.title] when React applies it, whatever the state.  On a
    mounted page the render error unmounts the component, which cancels the
    pending timer and closes the socket. *)
Theorem recommendation_without_course_unmounts :
  (forall (Date_now : Z) (s : State) (v c : Value),
     get v "type" = Ok (JString "new_recommendation") ->
     get v "course" = Ok c -> c = JNull \/ c = JUndefined ->
     deliver Date_now s (onmessage (Encoded v)) = RenderError TypeError)
  /\ (forall (w : World) (t : Z) (v c : Value) (w' : World),
        reachable w -> mounted w = true ->
        get v "type" = Ok (JString "new_recommendation") ->
        get v "course" = Ok c -> c = JNull \/ c = JUndefined ->
        step w (t, Message (Encoded v)) = Some w' ->
        mounted w' = false /\ timers w' = [] /\ socket w' = Some CLOSING
        /\ close_calls w' = 1).
Proof.
  assert (D : forall t s v c,
             get v "type" = Ok (JString "new_recommendation") ->
             get v "course" = Ok c -> c = JNull \/ c = JUndefined ->
             exists acts, onmessage (Encoded v) = Ok acts
                          /\ reduce t s acts = Throw TypeError).
  { intros t s v c Hty Hc Hnull. unfold onmessage. simpl. rewrite Hty. simpl.
    eexists. split; [reflexivity|]. simpl. unfold slice_to. rewrite Hc.
    destruct Hnull as [-> | ->]; reflexivity. }
  split.
  - intros t s v c Hty Hc Hnull.
    destruct (D t s v c Hty Hc Hnull) as (acts & Hh & Hr).
    unfold deliver. rewrite Hh, Hr. reflexivity.
  - intros w t v c w' Hr Hm Hty Hc Hnull Hstep.
    destruct (reachable_ok w Hr) as [Hok (_ & _ & Hcl & _)].
    destruct (D t (state w) v c Hty Hc Hnull) as (acts & Hh & Hred).
    pose proof (step_mounted_state w t _ w' Hm Hstep) as Hst.
    simpl handler in Hst. rewrite Hh, (commit_Throw _ _ _ _ Hred) in Hst.
    destruct Hst as [_ Hm']; [discriminate|].
    destruct (step_spec w t _ w' Hok Hstep)
      as (En & _ & _ & _ & _
          & [(M & _)|(_ & _ & T2 & _ & T4 & T5 & _)]); [congruence|].
    unfold enabled in En. apply andb_prop in En as [_ En].
    destruct (socket w) as [[]|]; try discriminate En.
    simpl in T4, T5. rewrite (Hcl Hm) in T5.
    repeat split; assumption.
Qed.

Lemma recommendation_without_course_unmounts_witness :
  deliver 0 initial_state
    (onmessage (Encoded (JObject [("type", JString "new_recommendation");
                                  ("course", JNull)])))
  = RenderError TypeError.
Proof.
  apply (proj1 recommendation_without_course_unmounts 0%Z initial_state
           (JObject [("type", JString "new_recommendation");
                     ("course", JNull)]) JNull).
  - reflexivity.
  - reflexivity.
  - left. reflexivity.
Defined.

(** X12.  A recommended course that has no title, and that the card can
    draw all the same, is listed on a page that is showing its state, and
    its toast reads "New recommendation: undefined". *)
Theorem recommendation_without_title_says_undefined :
  forall (Date_now : Z) (s : State) (data : Payload) (c : Value),
    new_recommendation c data ->
    get c "title" = Ok JUndefined ->
    renderable true c ->
    render s = Ok tt ->
    exists acts,
      rendered Date_now s (onmessage data)
      = Handled {| topPicks := topPicks s; trending := trending s;
                   aiSuggestions := firstn 10 (c :: aiSuggestions s);
                   isLoading := isLoading s; chatbotOpen := chatbotOpen s;
                   notifications :=
                     notifications s
                     ++ [{| id := Date_now;
                            message := "New recommendation: undefined" |}] |}
                acts.
Proof.
  intros t s data c Hnew Ht Hc Hs.
  apply (rendered_new_recommendation t s data c "undefined" Hnew);
    try assumption.
  exists JUndefined. split; [exact Ht|reflexivity].
Qed.

Lemma recommendation_without_title_says_undefined_witness :
  exists acts,
    rendered 2 (state opened)
      (onmessage (envelope "new_recommendation" "course"
                    (JObject [("id", JNumber "9");
                              ("students", JNumber "40")])))
    = Handled {| topPicks := topPicks (state opened);
                 trending := trending (state opened);
                 aiSuggestions :=
                   firstn 10 (JObject [("id", JNumber "9");
                                       ("students", JNumber "40")]
                              :: aiSuggestions (state opened));
                 isLoading := isLoading (state opened);
                 chatbotOpen := chatbotOpen (state opened);
                 notifications :=
                   notifications (state opened)
                   ++ [{| id := 2;
                          message := "New recommendation: undefined" |}] |}
              acts.
Proof.
  apply (recommendation_without_title_says_undefined 2 (state opened)
           (envelope "new_recommendation" "course"
              (JObject [("id", JNumber "9"); ("students", JNumber "40")]))
           (JObject [("id", JNumber "9"); ("students", JNumber "40")])).
  - apply envelope_new_recommendation.
  - reflexivity.
  - reflexivity.
  - vm_compute. reflexivity.
Defined.

Lemma run_keeps_static_cells (trace : list (Z * Event)) :
  forall w w', run w trace = Some w' ->
               topPicks (state w') = topPicks (state w)
               /\ isLoading (state w') = isLoading (state w).
Proof.
  induction trace as [|[t ev] trace IH]; cbn [run]; intros w w' Hrun.
  - injection Hrun as <-. split; reflexivity.
  - destruct (step w (t, ev)) as [w1|] eqn:Hs; [|discriminate].
    destruct (IH w1 w' Hrun) as [H1 H2]. rewrite H1, H2.
    destruct (step_state w t ev w1 Hs) as [->|(acts & Hh & Hr)];
      [split; reflexivity|].
    destruct (handler_queue ev acts t _ _ Hh Hr) as [(F1 & F2 & _) _].
    split; assumption.
Qed.

(** X13.  Nothing that arrives after the mount touches the "Top Picks"
    carousel or brings the loading spinner back: in every world a run
    reaches, top picks are the five courses of the initial fetch and
    [isLoading] is false. *)
Theorem top_picks_and_spinner_are_settled_at_mount :
  forall w : World,
    reachable w ->
    Ok (topPicks (state w)) = mockFetchTopPicks
    /\ isLoading (state w) = false.
Proof.
  intros w (env & t0 & trace & Hrun).
  destruct (run_keeps_static_cells trace _ w Hrun) as [H1 H2].
  rewrite H1, H2. split; reflexivity.
Qed.

Lemma top_picks_and_spinner_are_settled_at_mount_witness :
  Ok (topPicks (state six_seconds_in)) = mockFetchTopPicks
  /\ isLoading (state six_seconds_in) = false.
Proof.
  apply (top_picks_and_spinner_are_settled_at_mount six_seconds_in).
  exists None, 0%Z, (two_in_a_row ++ [(6000%Z, SocketError)]).
  vm_compute. reflexivity.
Defined.

(* ================================================================== *)
(** * More on data population and on the star row *)
(* ================================================================== *)

(** X14.  [fetchData] fetches in sequence and sets nothing before all three
    fetches have resolved.  So a rejection stops the sequence (the fetches
    after it are never called) and drops what was fetched before it: the
    state gets all three lists or none of them, and [isLoading] is cleared
    in both cases. *)
Theorem landing_population_is_all_or_nothing :
  forall (tp tr ai : result (list Value)) (Date_now : Z) (s : State),
    exists s',
      reduce Date_now s (fetchData tp tr ai) = Ok s'
      /\ isLoading s' = false
      /\ notifications s' = notifications s
      /\ called (fetchData tp tr ai)
         = match tp, tr with
           | Throw _, _ => ["mockFetchTopPicks"]
           | Ok _, Throw _ => ["mockFetchTopPicks"; "mockFetchTrending"]
           | Ok _, Ok _ => ["mockFetchTopPicks"; "mockFetchTrending";
                            "mockFetchAiSuggestions"]
           end
      /\ match tp, tr, ai with
         | Ok a, Ok b, Ok c =>
             topPicks s' = a /\ trending s' = JArray b /\ aiSuggestions s' = c
         | _, _, _ =>
             topPicks s' = topPicks s /\ trending s' = trending s
             /\ aiSuggestions s' = aiSuggestions s
         end.
Proof.
  intros tp tr ai t s.
  destruct tp as [a|e]; [destruct tr as [b|e]; [destruct ai as [c|e]|]|];
    eexists; (split; [reflexivity|]); repeat split.
Qed.

Ltac settle_fetchers settled :=
  destruct (Dashboard.attempt "Failed to fetch learning data"
              (settled Dashboard.LearningData));
  destruct (Dashboard.attempt "Failed to fetch recommendations"
              (settled Dashboard.Recommendations));
  destruct (Dashboard.attempt "Failed to fetch top courses"
              (settled Dashboard.TopCourses)).

(** X15.  On the dashboard each list depends on its own request only: in
    whatever order the three requests settle, a list shows the data of its
    response when its request succeeds and its sample data when it fails,
    whether or not the other two requests fail. *)
Theorem dashboard_lists_are_independent :
  forall (settled : Dashboard.Fetcher -> result Dashboard.Response)
         (order : list Dashboard.Fetcher) (f : Dashboard.Fetcher),
    Permutation order [Dashboard.LearningData; Dashboard.Recommendations;
                       Dashboard.TopCourses] ->
    Dashboard.shown f
      (Dashboard.reduce Dashboard.initial_state
         (Dashboard.populate settled order))
    = match Dashboard.attempt (Dashboard.failure f) (settled f) with
      | Ok data => data
      | Throw _ => Dashboard.fallback f
      end.
Proof.
  intros settled order f Hp.
  apply fetchers_settle_in_some_order in Hp.
  unfold Dashboard.populate, Dashboard.reduce. simpl in Hp.
  destruct Hp as [<-|[<-|[<-|[<-|[<-|[<-|[]]]]]]];
    destruct f; unfold Dashboard.failure;
    cbn [flat_map Dashboard.continue];
    unfold Dashboard.fetchLearningData, Dashboard.fetchRecommendations,
      Dashboard.fetchTopCourses;
    settle_fetchers settled; reflexivity.
Qed.

Lemma dashboard_lists_are_independent_witness :
  Dashboard.shown Dashboard.Recommendations
    (Dashboard.reduce Dashboard.initial_state
       (Dashboard.populate
          (fun f => match f with
                    | Dashboard.TopCourses => Throw TypeError
                    | _ => Ok {| Dashboard.ok := true;
                                 Dashboard.json := Ok (JArray []) |}
                    end)
          [Dashboard.TopCourses; Dashboard.LearningData;
           Dashboard.Recommendations]))
  = JArray [].
Proof.
  apply (dashboard_lists_are_independent
           (fun f => match f with
                     | Dashboard.TopCourses => Throw TypeError
                     | _ => Ok {| Dashboard.ok := true;
                                  Dashboard.json := Ok (JArray []) |}
                     end)
           [Dashboard.TopCourses; Dashboard.LearningData;
            Dashboard.Recommendations] Dashboard.Recommendations).
  apply perm_trans with
    [Dashboard.LearningData; Dashboard.TopCourses; Dashboard.Recommendations].
  - apply perm_swap.
  - apply perm_skip. apply perm_swap.
Defined.

(** X16.  The dashboard has one [error] cell for three fetchers: the banner
    shows the message of the fetcher that failed last in the order in which
    the requests settle, the messages of earlier failures are overwritten,
    and there is no banner exactly when all three requests succeed. *)
Theorem dashboard_banner_is_the_last_failure :
  forall (settled : Dashboard.Fetcher -> result Dashboard.Response)
         (order : list Dashboard.Fetcher),
    Permutation order [Dashboard.LearningData; Dashboard.Recommendations;
                       Dashboard.TopCourses] ->
    Dashboard.error
      (Dashboard.reduce Dashboard.initial_state
         (Dashboard.populate settled order))
    = last_failure settled order
    /\ (last_failure settled order = None <->
        fails settled Dashboard.LearningData = false
        /\ fails settled Dashboard.Recommendations = false
        /\ fails settled Dashboard.TopCourses = false).
Proof.
  intros settled order Hp.
  apply fetchers_settle_in_some_order in Hp.
  unfold Dashboard.populate, Dashboard.reduce, last_failure, fails.
  simpl in Hp.
  destruct Hp as [<-|[<-|[<-|[<-|[<-|[<-|[]]]]]]];
    cbn [flat_map Dashboard.continue rev app filter Dashboard.failure];
    unfold Dashboard.fetchLearningData, Dashboard.fetchRecommendations,
      Dashboard.fetchTopCourses;
    settle_fetchers settled; cbn [filter];
    (split; [reflexivity|]);
    (split; [intros H; try discriminate H; repeat split
            |intros (H1 & H2 & H3);
             try discriminate H1; try discriminate H2; try discriminate H3;
             reflexivity]).
Qed.

Lemma dashboard_banner_is_the_last_failure_witness :
  Dashboard.error
    (Dashboard.reduce Dashboard.initial_state
       (Dashboard.populate (fun _ => Throw TypeError)
          [Dashboard.TopCourses; Dashboard.LearningData;
           Dashboard.Recommendations]))
  = last_failure (fun _ => Throw TypeError)
      [Dashboard.TopCourses; Dashboard.LearningData;
       Dashboard.Recommendations]
  /\ (last_failure (fun _ => Throw TypeError)
        [Dashboard.TopCourses; Dashboard.LearningData;
         Dashboard.Recommendations] = None <->
      fails (fun _ => Throw TypeError) Dashboard.LearningData = false
      /\ fails (fun _ => Throw TypeError) Dashboard.Recommendations = false
      /\ fails (fun _ => Throw TypeError) Dashboard.TopCourses = false).
Proof.
  apply (dashboard_banner_is_the_last_failure (fun _ => Throw TypeError)
           [Dashboard.TopCourses; Dashboard.LearningData;
            Dashboard.Recommendations]).
  apply perm_trans with
    [Dashboard.LearningData; Dashboard.TopCourses; Dashboard.Recommendations].
  - apply perm_swap.
  - apply perm_skip. apply perm_swap.
Defined.

(** X17.  The star row is the floor of the rating cut to 0..5: that many lit
    stars come first and the rest are grey.  There are no half stars and no
    rounding up (a rating below 5 never shows five stars), and a higher
    rating never shows fewer stars. *)
Theorem stars_are_the_floor_of_the_rating :
  (forall rating : QArith_base.Q,
     Rating.stars rating
     = repeat true
         (Z.to_nat (Z.max 0 (Z.min 5 (Qround.Qfloor rating))))
       ++ repeat false
            (5 - Z.to_nat (Z.max 0 (Z.min 5 (Qround.Qfloor rating)))))
  /\ (forall r1 r2 : QArith_base.Q,
        QArith_base.Qle r1 r2 ->
        forall i, Rating.lit r1 i = true -> Rating.lit r2 i = true).
Proof.
  split.
  - intros rating. unfold Rating.stars, Rating.lit.
    set (f := Qround.Qfloor rating).
    assert (Hf : (f <= 0 \/ f = 1 \/ f = 2 \/ f = 3 \/ f = 4 \/ 5 <= f)%Z)
      by lia.
    destruct Hf as [H|[->|[->|[->|[->|H]]]]]; try reflexivity.
    + replace (Z.max 0 (Z.min 5 f)) with 0%Z by lia. cbn [map].
      rewrite !(proj2 (Z.ltb_ge _ _)) by lia. reflexivity.
    + replace (Z.max 0 (Z.min 5 f)) with 5%Z by lia. cbn [map].
      rewrite !(proj2 (Z.ltb_lt _ _)) by lia. reflexivity.
  - intros r1 r2 Hle i. unfold Rating.lit. rewrite !Z.ltb_lt.
    pose proof (Qround.Qfloor_resp_le r1 r2 Hle). lia.
Qed.

Lemma stars_are_the_floor_of_the_rating_witness :
  Rating.stars (QArith_base.Qmake 49 10) = [true; true; true; true; false].
Proof.
  rewrite (proj1 stars_are_the_floor_of_the_rating (QArith_base.Qmake 49 10)).
  reflexivity.
Defined.

(** X18.  The dashboard keeps its spinner until the slowest request has
    settled: [setLoading(false)] is the last call of the effect, so after any
    shorter prefix of its calls [loading] is still true, whatever lists the
    fetchers have filled by then. *)
Theorem dashboard_spinner_waits_for_all_requests :
  forall (settled : Dashboard.Fetcher -> result Dashboard.Response)
         (order : list Dashboard.Fetcher) (n : nat),
    Permutation order [Dashboard.LearningData; Dashboard.Recommendations;
                       Dashboard.TopCourses] ->
    n < List.length (Dashboard.populate settled order) ->
    Dashboard.loading
      (Dashboard.reduce Dashboard.initial_state
         (firstn n (Dashboard.populate settled order))) = true
    /\ Dashboard.loading
         (Dashboard.reduce Dashboard.initial_state
            (Dashboard.populate settled order)) = false.
Proof.
  intros settled order n Hp.
  apply fetchers_settle_in_some_order in Hp.
  unfold Dashboard.populate, Dashboard.reduce. simpl in Hp.
  destruct Hp as [<-|[<-|[<-|[<-|[<-|[<-|[]]]]]]];
    cbn [flat_map Dashboard.continue];
    unfold Dashboard.fetchLearningData, Dashboard.fetchRecommendations,
      Dashboard.fetchTopCourses;
    settle_fetchers settled; intros Hn; (split; [|reflexivity]);
    do 14 (destruct n as [|n]; [first [reflexivity|simpl in Hn; lia]|]);
    simpl in Hn; lia.
Qed.

Lemma dashboard_spinner_waits_for_all_requests_witness :
  Dashboard.loading
    (Dashboard.reduce Dashboard.initial_state
       (firstn 6 (Dashboard.populate (fun _ => Throw TypeError)
                    [Dashboard.LearningData; Dashboard.Recommendations;
                     Dashboard.TopCourses]))) = true
  /\ Dashboard.loading
       (Dashboard.reduce Dashboard.initial_state
          (Dashboard.populate (fun _ => Throw TypeError)
             [Dashboard.LearningData; Dashboard.Recommendations;
              Dashboard.TopCourses])) = false.
Proof.
  apply (dashboard_spinner_waits_for_all_requests (fun _ => Throw TypeError)
           [Dashboard.LearningData; Dashboard.Recommendations;
            Dashboard.TopCourses] 6).
  - apply Permutation_refl.
  - vm_compute. lia.
Defined.
